(** * A model of the storage conformance suite (package [storagetests])

    The suite is a catalogue of twelve scenarios, each a Go closure of type
    [Func] that drives a [storage.Interface] value obtained from a
    [CreateFunc], checks what comes back with testify assertions and reports
    to a [*testing.T].  The scenarios are translated one by one into a small
    monad that threads the state of the world the backend lives in, collects
    what the running test wrote to its [*testing.T], and can stop early
    (a panic, or the [runtime.Goexit] behind [t.SkipNow]). *)

From Stdlib Require Import String Ascii List Bool Arith Lia.
From Stdlib.Strings Require Import Byte.
Import ListNotations.
Local Open Scope string_scope.
Local Open Scope list_scope.

Set Implicit Arguments.
Set Warnings "-register-all".

(* ===================================================================== *)
(** ** Package [unit]: the fixtures the scenarios build *)
(* ===================================================================== *)

(** Modelled from the spec: the package github.com/anothermemory/unit is an
    external collaborator, absent from the sources.  The spec (sections 2, 3
    and 6) gives it a closed set of type tags, an identifier and a title for
    every unit, a data payload for the three text variants, a language tag for
    code, an ordered sequence of items (data, done flag) for a todo and an
    ordered sequence of child units for a list.  Timestamps are left out. *)
Module UnitPkg.

Inductive Type_ : Set :=
| TypeUnit | TypeTextPlain | TypeTextMarkdown | TypeTextCode | TypeTodo | TypeList.

Record TodoItem : Set := mkTodoItem { Data : string; Done : bool }.

Inductive Unit : Set :=
| UUnit (id title : string)
| UTextPlain (id title data : string)
| UTextMarkdown (id title data : string)
| UTextCode (id title data language : string)
| UTodo (id title : string) (items : list TodoItem)
| UList (id title : string) (items : list Unit).

Definition ID (u : Unit) : string :=
  match u with
  | UUnit i _ | UTextPlain i _ _ | UTextMarkdown i _ _
  | UTextCode i _ _ _ | UTodo i _ _ | UList i _ _ => i
  end.

(** The method [Type()]; [Type] itself is a reserved word here. *)
Definition TypeOf (u : Unit) : Type_ :=
  match u with
  | UUnit _ _ => TypeUnit
  | UTextPlain _ _ _ => TypeTextPlain
  | UTextMarkdown _ _ _ => TypeTextMarkdown
  | UTextCode _ _ _ _ => TypeTextCode
  | UTodo _ _ _ => TypeTodo
  | UList _ _ _ => TypeList
  end.

(** Functional options, applied in order by the constructors. *)
Definition Option_ := Unit -> Unit.

Definition OptionTitle (t : string) : Option_ := fun u =>
  match u with
  | UUnit i _ => UUnit i t
  | UTextPlain i _ d => UTextPlain i t d
  | UTextMarkdown i _ d => UTextMarkdown i t d
  | UTextCode i _ d l => UTextCode i t d l
  | UTodo i _ xs => UTodo i t xs
  | UList i _ xs => UList i t xs
  end.

Definition OptionTextPlainData (d : string) : Option_ := fun u =>
  match u with UTextPlain i t _ => UTextPlain i t d | _ => u end.

Definition OptionTextMarkdownData (d : string) : Option_ := fun u =>
  match u with UTextMarkdown i t _ => UTextMarkdown i t d | _ => u end.

Definition OptionTextCodeData (d : string) : Option_ := fun u =>
  match u with UTextCode i t _ l => UTextCode i t d l | _ => u end.

Definition OptionTextCodeLanguage (l : string) : Option_ := fun u =>
  match u with UTextCode i t d _ => UTextCode i t d l | _ => u end.

Definition apply_options (opts : list Option_) (u : Unit) : Unit :=
  fold_left (fun acc o => o acc) opts u.

(** Todo items: [NewItem] gives an empty, undone item; the setters mutate it
    in Go and rebuild it here. *)
Definition NewItem : TodoItem := mkTodoItem "" false.
Definition SetData (d : string) (i : TodoItem) : TodoItem := mkTodoItem d (Done i).
Definition SetDone (b : bool) (i : TodoItem) : TodoItem := mkTodoItem (Data i) b.

Definition SetTodoItems (xs : list TodoItem) (u : Unit) : Unit :=
  match u with UTodo i t _ => UTodo i t xs | _ => u end.

Definition SetListItems (xs : list Unit) (u : Unit) : Unit :=
  match u with UList i t _ => UList i t xs | _ => u end.

(** The structural oracle of section 4.3 of the spec: same tag, same fields,
    lists compared element by element in order. *)
Definition item_eqb (a b : TodoItem) : bool :=
  String.eqb (Data a) (Data b) && Bool.eqb (Done a) (Done b).

Fixpoint list_eqb {A : Type} (eqb : A -> A -> bool) (xs ys : list A) : bool :=
  match xs, ys with
  | [], [] => true
  | x :: xs', y :: ys' => eqb x y && list_eqb eqb xs' ys'
  | _, _ => false
  end.

Fixpoint eqb (a b : Unit) {struct a} : bool :=
  match a, b with
  | UUnit i t, UUnit i' t' => String.eqb i i' && String.eqb t t'
  | UTextPlain i t d, UTextPlain i' t' d' =>
      String.eqb i i' && String.eqb t t' && String.eqb d d'
  | UTextMarkdown i t d, UTextMarkdown i' t' d' =>
      String.eqb i i' && String.eqb t t' && String.eqb d d'
  | UTextCode i t d l, UTextCode i' t' d' l' =>
      String.eqb i i' && String.eqb t t' && String.eqb d d' && String.eqb l l'
  | UTodo i t xs, UTodo i' t' xs' =>
      String.eqb i i' && String.eqb t t' && list_eqb item_eqb xs xs'
  | UList i t xs, UList i' t' xs' =>
      String.eqb i i' && String.eqb t t' &&
      (fix go (us vs : list Unit) {struct us} : bool :=
         match us, vs with
         | [], [] => true
         | u :: us', v :: vs' => eqb u v && go us' vs'
         | _, _ => false
         end) xs xs'
  | _, _ => false
  end.

(** [unit.Equal] on interface values: a nil side is never equal. *)
Definition Equal (a b : option Unit) : bool :=
  match a, b with
  | Some x, Some y => eqb x y
  | _, _ => false
  end.

End UnitPkg.

Import UnitPkg.

(* ===================================================================== *)
(** ** What a test leaves behind: calls, assertions, reports *)
(* ===================================================================== *)

(** A [[]byte] value; [None] is the nil slice. *)
Definition bytes := option (list byte).

(** A [*testing.T] is identified by its depth in the tree of running tests:
    the [t] handed to [RunStorageTests] is 0, the [t] of a scenario is 1 and
    the [t] of a sub-test started inside a scenario is 2. *)
Definition T := nat.

(** [*assert.Assertions] remembers the [t] it was made for. *)
Record Assertions : Set := mkAssertions { assert_t : T }.
Definition assert_New (t : T) : Assertions := mkAssertions t.

Inductive Outcome : Set := Passed | Failed | Skipped | Panicked.

Section Suite.

Variables World Storage Err : Type.

(** A Go [error]: [None] is nil. *)
Definition error := option Err.

(** Every call the suite makes on the backend, with what came back. *)
Inductive CallEv : Type :=
| CNew (s : Storage)
| CCreate (s : Storage) (e : error)
| CIsCreated (s : Storage) (b : bool)
| CRemove (s : Storage) (e : error)
| CSaveUnit (s : Storage) (u : option Unit) (e : error)
| CLoadUnit (s : Storage) (id : string) (u : option Unit) (e : error)
| CRemoveUnit (s : Storage) (u : option Unit) (e : error)
| CMarshal (s : Storage) (b : bytes) (e : error)
| CLoadFromConfig (b : bytes) (s : option Storage) (e : error).

(** The values handed to [is.Nil] and [is.NotNil]. *)
Inductive Value : Type :=
| VUnit (u : option Unit)
| VStorage (s : option Storage)
| VBytes (b : bytes).

Definition is_nil (v : Value) : bool :=
  match v with
  | VUnit None | VStorage None | VBytes None => true
  | _ => false
  end.

(** A testify assertion together with the value it was given. *)
Inductive Expectation : Type :=
| NoError (e : error)
| IsError (e : error)
| IsTrue (b : bool)
| IsFalse (b : bool)
| IsNil (v : Value)
| NotNil (v : Value).

Definition is_none {A : Type} (o : option A) : bool :=
  match o with None => true | Some _ => false end.

Definition holds (k : Expectation) : bool :=
  match k with
  | NoError e => is_none e
  | IsError e => negb (is_none e)
  | IsTrue b => b
  | IsFalse b => negb b
  | IsNil v => is_nil v
  | NotNil v => negb (is_nil v)
  end.

Inductive Event : Type :=
| Call (c : CallEv)
| Assert (k : Expectation).

(** One node of the report: the name given to [t.Run], how the test ended,
    what it did in order, and the sub-tests it started. *)
Inductive Report : Type :=
| mkReport (name : string) (outcome : Outcome) (log : list Event) (subs : list Report).

Definition name (r : Report) : string := let 'mkReport n _ _ _ := r in n.
Definition outcome (r : Report) : Outcome := let 'mkReport _ o _ _ := r in o.
Definition log (r : Report) : list Event := let 'mkReport _ _ l _ := r in l.
Definition subs (r : Report) : list Report := let 'mkReport _ _ _ s := r in s.

(** What reaches a [*testing.T] while a body runs. *)
Inductive Out : Type :=
| OCall (c : CallEv)
| OAssert (t : T) (k : Expectation)
| OSkip (t : T)
| OSub (t : T) (r : Report).

(** How a body ends: normally, by [runtime.Goexit] (behind [t.SkipNow]), or by
    a panic, which takes the whole test binary down. *)
Inductive Res (A : Type) : Type :=
| Ok (a : A)
| Goexit
| Panic.
Arguments Goexit {A}.
Arguments Panic {A}.

Definition M (A : Type) : Type := World -> Res A * list Out * World.

Definition ret {A : Type} (a : A) : M A := fun w => (Ok a, [], w).

Definition bind {A B : Type} (m : M A) (k : A -> M B) : M B := fun w =>
  let '(r, o1, w1) := m w in
  match r with
  | Ok a => let '(r2, o2, w2) := k a w1 in (r2, o1 ++ o2, w2)
  | Goexit => (Goexit, o1, w1)
  | Panic => (Panic, o1, w1)
  end.

Definition panic {A : Type} : M A := fun w => (Panic, [], w).


Notation "x <- m ;; k" := (bind m (fun x => k))
  (at level 61, m at next level, right associativity).
Notation "m ;;; k" := (bind m (fun _ => k))
  (at level 61, right associativity).

(** A [for _, x := range xs] loop. *)
Fixpoint range {A : Type} (xs : list A) (body : A -> M unit) : M unit :=
  match xs with
  | [] => ret tt
  | x :: xs' => body x ;;; range xs' body
  end.

(* ===================================================================== *)
(** ** The collaborators: storage backend, unit package, encoding/json *)
(* ===================================================================== *)

(** The backend under test.  Each method of [storage.Interface] is a
    transformer of the world, applied to the handle it is called on;
    [MarshalJSON] is [json.Marshal] of a handle.  The last three fields are
    what the suite needs of package [unit]: fresh identifiers for the
    constructors, the equality oracle and the names of the type tags. *)
Record Env : Type := mkEnv {
  Create : Storage -> World -> error * World;
  IsCreated : Storage -> World -> bool * World;
  Remove : Storage -> World -> error * World;
  SaveUnit : Storage -> option Unit -> World -> error * World;
  LoadUnit : Storage -> string -> World -> option Unit * error * World;
  RemoveUnit : Storage -> option Unit -> World -> error * World;
  MarshalJSON : Storage -> World -> bytes * error * World;
  NewID : World -> string * World;
  Equal : option Unit -> option Unit -> bool;
  TypeString : Type_ -> string
}.

(** [CreateFunc]: returns a storage object; it is taken to be non-nil, as
    every scenario calls a method on it at once. *)
Definition CreateFunc : Type := World -> Storage * World.

(** [LoadFromConfigFunc]: [None] is the nil function value. *)
Definition LoadFromConfigFunc : Type :=
  option (bytes -> World -> option Storage * error * World).

(** [Func]: one test-case. *)
Definition Func : Type := T -> CreateFunc -> LoadFromConfigFunc -> Assertions -> M unit.

Variable E : Env.

(** Calls on the collaborators, recorded as they are made. *)
Definition call_c (c : CreateFunc) : M Storage := fun w =>
  let '(s, w') := c w in (Ok s, [OCall (CNew s)], w').

Definition call_l (l : bytes -> World -> option Storage * error * World)
    (b : bytes) : M (option Storage * error) := fun w =>
  let '(s, e, w') := l b w in (Ok (s, e), [OCall (CLoadFromConfig b s e)], w').

Definition s_Create (s : Storage) : M error := fun w =>
  let '(e, w') := Create E s w in (Ok e, [OCall (CCreate s e)], w').

Definition s_IsCreated (s : Storage) : M bool := fun w =>
  let '(b, w') := IsCreated E s w in (Ok b, [OCall (CIsCreated s b)], w').

Definition s_Remove (s : Storage) : M error := fun w =>
  let '(e, w') := Remove E s w in (Ok e, [OCall (CRemove s e)], w').

Definition s_SaveUnit (s : Storage) (u : option Unit) : M error := fun w =>
  let '(e, w') := SaveUnit E s u w in (Ok e, [OCall (CSaveUnit s u e)], w').

Definition s_LoadUnit (s : Storage) (id : string) : M (option Unit * error) := fun w =>
  let '(u, e, w') := LoadUnit E s id w in (Ok (u, e), [OCall (CLoadUnit s id u e)], w').

Definition s_RemoveUnit (s : Storage) (u : option Unit) : M error := fun w =>
  let '(e, w') := RemoveUnit E s u w in (Ok e, [OCall (CRemoveUnit s u e)], w').

Definition json_Marshal (s : Storage) : M (bytes * error) := fun w =>
  let '(b, e, w') := MarshalJSON E s w in (Ok (b, e), [OCall (CMarshal s b e)], w').

(** A method call on an interface value panics when the value is nil. *)
Definition deref {A : Type} (o : option A) : M A :=
  match o with
  | Some a => ret a
  | None => panic
  end.

(** The constructors of package [unit] draw a fresh identifier and apply the
    options in order. *)
Definition new_with (mk : string -> Unit) (opts : list Option_) : M Unit := fun w =>
  let '(i, w') := NewID E w in (Ok (apply_options opts (mk i)), [], w').

Definition NewUnit := new_with (fun i => UUnit i "").
Definition NewTextPlain := new_with (fun i => UTextPlain i "" "").
Definition NewTextMarkdown := new_with (fun i => UTextMarkdown i "" "").
Definition NewTextCode := new_with (fun i => UTextCode i "" "" "").
Definition NewTodo := new_with (fun i => UTodo i "" []).
Definition NewList := new_with (fun i => UList i "" []).

(* ===================================================================== *)
(** ** Packages [testing] and [assert] *)
(* ===================================================================== *)

(** A testify assertion never stops the test: it records the check against
    the [t] of its [Assertions] and returns whether it held. *)
Definition expect (is_ : Assertions) (k : Expectation) : M bool := fun w =>
  (Ok (holds k), [OAssert (assert_t is_) k], w).

Definition assert_NoError (is_ : Assertions) (e : error) := expect is_ (NoError e).
Definition assert_Error (is_ : Assertions) (e : error) := expect is_ (IsError e).
Definition assert_True (is_ : Assertions) (b : bool) := expect is_ (IsTrue b).
Definition assert_False (is_ : Assertions) (b : bool) := expect is_ (IsFalse b).
Definition assert_Nil (is_ : Assertions) (v : Value) := expect is_ (IsNil v).
Definition assert_NotNil (is_ : Assertions) (v : Value) := expect is_ (NotNil v).

(** [t.SkipNow()]: marks [t] skipped and leaves the goroutine. *)
Definition t_SkipNow (t : T) : M unit := fun w => (Goexit, [OSkip t], w).

(** What a finished test keeps of the output of its body: its own calls and
    the assertions made against its own [t], and the sub-tests run on it. *)
Definition own_events (t : T) (outs : list Out) : list Event :=
  flat_map (fun o =>
    match o with
    | OCall c => [Call c]
    | OAssert t' k => if Nat.eqb t' t then [Assert k] else []
    | _ => []
    end) outs.

Definition own_subs (t : T) (outs : list Out) : list Report :=
  flat_map (fun o =>
    match o with
    | OSub t' r => if Nat.eqb t' t then [r] else []
    | _ => []
    end) outs.

Definition own_skip (t : T) (outs : list Out) : bool :=
  existsb (fun o => match o with OSkip t' => Nat.eqb t' t | _ => false end) outs.

(** What is addressed to another, enclosing [t]. *)
Definition passes_on (t : T) (o : Out) : bool :=
  match o with
  | OCall _ => false
  | OAssert t' _ | OSkip t' | OSub t' _ => negb (Nat.eqb t' t)
  end.

Definition failed_event (e : Event) : bool :=
  match e with
  | Assert k => negb (holds k)
  | Call _ => false
  end.

Definition is_failure (o : Outcome) : bool :=
  match o with
  | Failed | Panicked => true
  | Passed | Skipped => false
  end.

Definition failed_report (r : Report) : bool := is_failure (outcome r).

(** A test that panicked is reported as such; a failed assertion or a failed
    sub-test makes it fail, even if it was skipped afterwards. *)
Definition outcome_of (r : Res unit) (t : T) (outs : list Out) : Outcome :=
  match r with
  | Panic => Panicked
  | _ =>
      if existsb failed_event (own_events t outs)
         || existsb failed_report (own_subs t outs)
      then Failed
      else if own_skip t outs then Skipped else Passed
  end.

(** [t.Run(name, f)]: runs [f] to its end on a new [t], one level deeper,
    files the report under [t] and says whether the sub-test did not fail.
    A skip ends the sub-test only; a panic goes through. *)
Definition t_Run (t : T) (name : string) (f : T -> M unit) : M bool := fun w =>
  let '(r, outs, w') := f (S t) w in
  let rep := mkReport name (outcome_of r (S t) outs)
                      (own_events (S t) outs) (own_subs (S t) outs) in
  let outs' := filter (passes_on (S t)) outs ++ [OSub t rep] in
  match r with
  | Panic => (Panic, outs', w')
  | _ => (Ok (negb (failed_report rep)), outs', w')
  end.

(* ===================================================================== *)
(** ** The catalogue: [tests] *)
(* ===================================================================== *)

(** "Storage is not created initially when initialized first time with given
    arguments" (storagetests.go, lines 33-35) *)
Definition test_not_created_initially : Func := fun t c l is_ =>
  s <- call_c c ;;
  b <- s_IsCreated s ;;
  assert_False is_ b ;;;
  ret tt.

(** "Storage can be successfully created" (lines 36-40) *)
Definition test_can_be_created : Func := fun t c l is_ =>
  s <- call_c c ;;
  e <- s_Create s ;;
  assert_NoError is_ e ;;;
  b <- s_IsCreated s ;;
  assert_True is_ b ;;;
  ret tt.

(** "Storage can not be used before it will be created" (lines 41-49).  The
    second [u] of the source is the first one assigned again. *)
Definition test_unusable_before_created : Func := fun t c l is_ =>
  s <- call_c c ;;
  u <- NewUnit [] ;;
  e <- s_SaveUnit s (Some u) ;;
  assert_Error is_ e ;;;
  e <- s_RemoveUnit s (Some u) ;;
  assert_Error is_ e ;;;
  r <- s_LoadUnit s "123" ;;
  let '(u, e) := r in
  assert_Error is_ e ;;;
  assert_Nil is_ (VUnit u) ;;;
  ret tt.

(** "Storage can be removed if not created before" (lines 50-53) *)
Definition test_remove_not_created : Func := fun t c l is_ =>
  s <- call_c c ;;
  e <- s_Remove s ;;
  assert_NoError is_ e ;;;
  ret tt.

(** "Storage can be removed if was created before" (lines 54-58) *)
Definition test_remove_created : Func := fun t c l is_ =>
  s <- call_c c ;;
  e <- s_Create s ;;
  assert_NoError is_ e ;;;
  e <- s_Remove s ;;
  assert_NoError is_ e ;;;
  ret tt.

(** "Storage is not created when removed" (lines 59-64) *)
Definition test_not_created_when_removed : Func := fun t c l is_ =>
  s <- call_c c ;;
  e <- s_Create s ;;
  assert_NoError is_ e ;;;
  e <- s_Remove s ;;
  assert_NoError is_ e ;;;
  s' <- call_c c ;;
  b <- s_IsCreated s' ;;
  assert_False is_ b ;;;
  ret tt.

(** The todo fixture of both unit scenarios (lines 72-78 and 111-117): two
    items set up through the setters, then installed with [SetItems]. *)
Definition with_two_items (unitTodo : Unit) : Unit :=
  let t1 := NewItem in
  let t1 := SetData "Data1" t1 in
  let t1 := SetDone true t1 in
  let t2 := NewItem in
  let t2 := SetData "Data2" t2 in
  let t2 := SetDone false t2 in
  SetTodoItems [t1; t2] unitTodo.

(** The body of the sub-test run for one unit [u] of the simple unit types
    scenario (lines 89-101).  The inner [l] of the source (the loaded unit) shadows the
    [LoadFromConfigFunc]; it is [lu] here. *)
Definition simple_unit_body (c : CreateFunc) (u : Unit) : T -> M unit := fun t =>
  let is_ := assert_New t in
  s <- call_c c ;;
  e <- s_Create s ;;
  assert_NoError is_ e ;;;
  e <- s_SaveUnit s (Some u) ;;
  assert_NoError is_ e ;;;
  r <- s_LoadUnit s (ID u) ;;
  let '(lu, e) := r in
  assert_NoError is_ e ;;;
  assert_True is_ (Equal E (Some u) lu) ;;;
  e <- s_RemoveUnit s lu ;;
  assert_NoError is_ e ;;;
  lu' <- deref lu ;;
  r <- s_LoadUnit s (ID lu') ;;
  let '(r, e) := r in
  assert_Error is_ e ;;;
  assert_Nil is_ (VUnit r) ;;;
  ret tt.

(** "Storage can handle all supported simple unit types" (lines 65-103) *)
Definition test_simple_unit_types : Func := fun t c l is_ =>
  unitUnit <- NewUnit [OptionTitle "MyUnit"] ;;
  unitTextPlain <- NewTextPlain [OptionTitle "MyUnit"; OptionTextPlainData "MyData"] ;;
  unitTextMarkdown <- NewTextMarkdown [OptionTitle "MyUnit"; OptionTextMarkdownData "MyData"] ;;
  unitTextCode <- NewTextCode [OptionTitle "MyUnit"; OptionTextCodeData "MyData";
                               OptionTextCodeLanguage "MyLang"] ;;
  unitTodo <- NewTodo [OptionTitle "MyUnit"] ;;
  let unitTodo := with_two_items unitTodo in
  let unitsTests := [unitUnit; unitTextPlain; unitTextMarkdown; unitTextCode; unitTodo] in
  range unitsTests (fun u =>
    t_Run t (TypeString E (TypeOf u)) (simple_unit_body c u) ;;;
    ret tt).

(** "Storage can handle list unit" (lines 104-143) *)
Definition test_list_unit : Func := fun t c l is_ =>
  unitUnit <- NewUnit [OptionTitle "MyUnit"] ;;
  unitTextPlain <- NewTextPlain [OptionTitle "MyUnit"; OptionTextPlainData "MyData"] ;;
  unitTextMarkdown <- NewTextMarkdown [OptionTitle "MyUnit"; OptionTextMarkdownData "MyData"] ;;
  unitTextCode <- NewTextCode [OptionTitle "MyUnit"; OptionTextCodeData "MyData";
                               OptionTextCodeLanguage "MyLang"] ;;
  unitTodo <- NewTodo [OptionTitle "MyUnit"] ;;
  let unitTodo := with_two_items unitTodo in
  unitList <- NewList [OptionTitle "MyUnit"] ;;
  let unitList :=
    SetListItems [unitUnit; unitTextPlain; unitTextMarkdown; unitTextCode; unitTodo]
                 unitList in
  s <- call_c c ;;
  e <- s_Create s ;;
  assert_NoError is_ e ;;;
  e <- s_SaveUnit s (Some unitUnit) ;;
  assert_NoError is_ e ;;;
  e <- s_SaveUnit s (Some unitTextPlain) ;;
  assert_NoError is_ e ;;;
  e <- s_SaveUnit s (Some unitTextMarkdown) ;;
  assert_NoError is_ e ;;;
  e <- s_SaveUnit s (Some unitTextCode) ;;
  assert_NoError is_ e ;;;
  e <- s_SaveUnit s (Some unitTodo) ;;
  assert_NoError is_ e ;;;
  e <- s_SaveUnit s (Some unitList) ;;
  assert_NoError is_ e ;;;
  r <- s_LoadUnit s (ID unitList) ;;
  let '(lu, e) := r in
  assert_NoError is_ e ;;;
  assert_True is_ (Equal E (Some unitList) lu) ;;;
  e <- s_RemoveUnit s lu ;;
  assert_NoError is_ e ;;;
  lu' <- deref lu ;;
  r <- s_LoadUnit s (ID lu') ;;
  let '(r, e) := r in
  assert_Error is_ e ;;;
  assert_Nil is_ (VUnit r) ;;;
  ret tt.

(** "Nil unit cannot be saved" (lines 144-148) *)
Definition test_nil_save : Func := fun t c l is_ =>
  s <- call_c c ;;
  e <- s_Create s ;;
  assert_NoError is_ e ;;;
  e <- s_SaveUnit s None ;;
  assert_Error is_ e ;;;
  ret tt.

(** "Nil unit cannot be removed" (lines 149-153) *)
Definition test_nil_remove : Func := fun t c l is_ =>
  s <- call_c c ;;
  e <- s_Create s ;;
  assert_NoError is_ e ;;;
  e <- s_RemoveUnit s None ;;
  assert_Error is_ e ;;;
  ret tt.

(** "Empty ID cannot be used to load unit" (lines 154-160) *)
Definition test_empty_id : Func := fun t c l is_ =>
  s <- call_c c ;;
  e <- s_Create s ;;
  assert_NoError is_ e ;;;
  r <- s_LoadUnit s "" ;;
  let '(lu, e) := r in
  assert_Error is_ e ;;;
  assert_Nil is_ (VUnit lu) ;;;
  ret tt.

(** "Directory config can be JSON serialized/deserialized " (lines 161-183).
    After [t.SkipNow()] the goroutine is gone, so the [return] is never
    reached. *)
Definition test_config_roundtrip : Func := fun t c l is_ =>
  match l with
  | None => t_SkipNow t
  | Some l =>
      u <- NewTextPlain [OptionTitle "MyUnit"; OptionTextPlainData "MyData"] ;;
      s <- call_c c ;;
      e <- s_Create s ;;
      assert_NoError is_ e ;;;
      e <- s_SaveUnit s (Some u) ;;
      assert_NoError is_ e ;;;
      r <- json_Marshal s ;;
      let '(config, err) := r in
      assert_NoError is_ err ;;;
      assert_NotNil is_ (VBytes config) ;;;
      r <- call_l l config ;;
      let '(sl, err) := r in
      assert_NoError is_ err ;;;
      assert_NotNil is_ (VStorage sl) ;;;
      sl' <- deref sl ;;
      r <- s_LoadUnit sl' (ID u) ;;
      let '(lu, err) := r in
      assert_NoError is_ err ;;;
      assert_NotNil is_ (VUnit lu) ;;;
      assert_True is_ (Equal E (Some u) lu) ;;;
      ret tt
  end.

Record TestCase : Type := mkTestCase { title : string; testFunc : Func }.

Definition tests : list TestCase := [
  mkTestCase "Storage is not created initially when initialized first time with given arguments"
             test_not_created_initially;
  mkTestCase "Storage can be successfully created" test_can_be_created;
  mkTestCase "Storage can not be used before it will be created" test_unusable_before_created;
  mkTestCase "Storage can be removed if not created before" test_remove_not_created;
  mkTestCase "Storage can be removed if was created before" test_remove_created;
  mkTestCase "Storage is not created when removed" test_not_created_when_removed;
  mkTestCase "Storage can handle all supported simple unit types" test_simple_unit_types;
  mkTestCase "Storage can handle list unit" test_list_unit;
  mkTestCase "Nil unit cannot be saved" test_nil_save;
  mkTestCase "Nil unit cannot be removed" test_nil_remove;
  mkTestCase "Empty ID cannot be used to load unit" test_empty_id;
  mkTestCase "Directory config can be JSON serialized/deserialized " test_config_roundtrip
].

(** [RunStorageTests]: full test run for all test-cases for given storage
    (lines 22-27). *)
Definition RunStorageTests (t : T) (c : CreateFunc) (l : LoadFromConfigFunc) : M unit :=
  range tests (fun test =>
    t_Run t (title test) (fun t => testFunc test t c l (assert_New t)) ;;;
    ret tt).

End Suite.

Arguments Goexit {A}.
Arguments Panic {A}.
Arguments mkEnv {World Storage Err}.
Arguments CNew {Storage Err}.
Arguments CCreate {Storage Err}.
Arguments CIsCreated {Storage Err}.
Arguments CRemove {Storage Err}.
Arguments CSaveUnit {Storage Err}.
Arguments CLoadUnit {Storage Err}.
Arguments CRemoveUnit {Storage Err}.
Arguments CMarshal {Storage Err}.
Arguments CLoadFromConfig {Storage Err}.
Arguments VUnit {Storage}.
Arguments VStorage {Storage}.
Arguments VBytes {Storage}.
Arguments NoError {Storage Err}.
Arguments IsError {Storage Err}.
Arguments IsTrue {Storage Err}.
Arguments IsFalse {Storage Err}.
Arguments IsNil {Storage Err}.
Arguments NotNil {Storage Err}.
Arguments Call {Storage Err}.
Arguments Assert {Storage Err}.
Arguments mkReport {Storage Err}.
Arguments OCall {Storage Err}.
Arguments OAssert {Storage Err}.
Arguments OSkip {Storage Err}.
Arguments OSub {Storage Err}.
Arguments CreateFunc : clear implicits.
Arguments LoadFromConfigFunc : clear implicits.
Arguments ret {World Storage Err A}.
Arguments bind {World Storage Err A B}.
Arguments panic {World Storage Err A}.

(** The reports filed under the [t] handed to [RunStorageTests], and whether
    a run went through without a failure (a skip is not one). *)
Definition suite_reports {World Storage Err : Type} (E : Env World Storage Err)
    (c : CreateFunc World Storage) (l : LoadFromConfigFunc World Storage Err)
    (w : World) : list (Report Storage Err) :=
  let '(_, outs, _) := RunStorageTests E 0 c l w in own_subs 0 outs.

Definition suite_passes {World Storage Err : Type} (E : Env World Storage Err)
    (c : CreateFunc World Storage) (l : LoadFromConfigFunc World Storage Err)
    (w : World) : bool :=
  let '(r, outs, _) := RunStorageTests E 0 c l w in
  match r with
  | Ok _ => negb (existsb (@failed_report Storage Err) (own_subs 0 outs))
  | _ => false
  end.

(** The two ways a scenario run from [RunStorageTests] can end: its report is
    filed under the root [t] and [t.Run] returns, or it is filed as panicked
    and the panic goes on. *)
Definition filed {World Storage Err : Type} (ttl : string) (o : Outcome)
    (lg : list (Event Storage Err)) (sb : list (Report Storage Err)) (w : World)
    : Res bool * list (Out Storage Err) * World :=
  (Ok (negb (is_failure o)), [OSub 0 (mkReport ttl o lg sb)], w).

Definition crashed {World Storage Err : Type} (ttl : string)
    (lg : list (Event Storage Err)) (sb : list (Report Storage Err)) (w : World)
    : Res bool * list (Out Storage Err) * World :=
  (Panic, [OSub 0 (mkReport ttl Panicked lg sb)], w).

(** The catalogue entry with a given title. *)
Definition scenario {World Storage Err : Type} (E : Env World Storage Err)
    (ttl : string) : TestCase World Storage Err :=
  match find (fun tc => String.eqb (title tc) ttl) (tests E) with
  | Some tc => tc
  | None => mkTestCase ttl (fun _ _ _ _ => ret tt)
  end.

(** One catalogue entry run on its own, the way [RunStorageTests] runs it. *)
Definition run_case {World Storage Err : Type} (E : Env World Storage Err)
    (tc : TestCase World Storage Err)
    (c : CreateFunc World Storage) (l : LoadFromConfigFunc World Storage Err)
    : M World Storage Err bool :=
  t_Run 0 (title tc) (fun t => testFunc tc t c l (assert_New t)).

(* ===================================================================== *)
(** ** A backend to run the suite on *)
(* ===================================================================== *)

(** An in-memory backend, used to exercise the suite on concrete runs.  Every
    call of the factory allocates a new instance; a handle is its index.  The
    [Mode] selects a conforming backend or one of two deviating ones. *)
Module Mem.

Inductive Phase : Set := Uninit | Created | Removed.

Record Inst : Set := mkInst { phase : Phase; units : list (string * Unit) }.

Record World : Set := mkWorld { insts : list Inst; next_id : nat }.

Definition Storage : Set := nat.
Definition Err : Set := string.

Inductive Mode : Set :=
| Strict      (* unit operations only on a created instance *)
| Lenient     (* unit operations also on a removed instance *)
| NoLoad.     (* [LoadUnit] never finds anything *)

Definition w0 : World := mkWorld [] 0.

Definition c : CreateFunc World Storage := fun w =>
  (length (insts w), mkWorld (insts w ++ [mkInst Uninit []]) (next_id w)).

Fixpoint update (n : nat) (f : Inst -> Inst) (xs : list Inst) : list Inst :=
  match xs, n with
  | [], _ => []
  | x :: xs', O => f x :: xs'
  | x :: xs', S n' => x :: update n' f xs'
  end.

Definition get (s : Storage) (w : World) : Inst :=
  nth s (insts w) (mkInst Uninit []).

Definition set (s : Storage) (f : Inst -> Inst) (w : World) : World :=
  mkWorld (update s f (insts w)) (next_id w).

Definition usable (m : Mode) (i : Inst) : bool :=
  match phase i, m with
  | Created, _ => true
  | Removed, Lenient => true
  | _, _ => false
  end.

Fixpoint lookup (id : string) (us : list (string * Unit)) : option Unit :=
  match us with
  | [] => None
  | (k, u) :: us' => if String.eqb k id then Some u else lookup id us'
  end.

Definition without (id : string) (us : list (string * Unit)) : list (string * Unit) :=
  filter (fun p => negb (String.eqb (fst p) id)) us.

Definition Create (s : Storage) (w : World) : option Err * World :=
  (None, set s (fun _ => mkInst Created []) w).

Definition IsCreated (s : Storage) (w : World) : bool * World :=
  (match phase (get s w) with Created => true | _ => false end, w).

Definition Remove (s : Storage) (w : World) : option Err * World :=
  (None, set s (fun i => match phase i with
                         | Uninit => i
                         | _ => mkInst Removed []
                         end) w).

Definition SaveUnit (m : Mode) (s : Storage) (u : option Unit) (w : World)
    : option Err * World :=
  match u with
  | None => (Some "nil unit", w)
  | Some x =>
      if usable m (get s w)
      then (None, set s (fun i => mkInst (phase i) ((ID x, x) :: without (ID x) (units i))) w)
      else (Some "storage is not created", w)
  end.

Definition LoadUnit (m : Mode) (s : Storage) (id : string) (w : World)
    : option Unit * option Err * World :=
  if String.eqb id "" then (None, Some "empty id", w)
  else if usable m (get s w) then
    match m, lookup id (units (get s w)) with
    | NoLoad, _ | _, None => (None, Some "not found", w)
    | _, Some u => (Some u, None, w)
    end
  else (None, Some "storage is not created", w).

Definition RemoveUnit (m : Mode) (s : Storage) (u : option Unit) (w : World)
    : option Err * World :=
  match u with
  | None => (Some "nil unit", w)
  | Some x =>
      if usable m (get s w)
      then (None, set s (fun i => mkInst (phase i) (without (ID x) (units i))) w)
      else (Some "storage is not created", w)
  end.

(** The configuration of a handle is its index, written in unary. *)
Definition MarshalJSON (s : Storage) (w : World) : bytes * option Err * World :=
  (Some (repeat x00 s), None, w).

Definition loadFromConfig (b : bytes) (w : World) : option Storage * option Err * World :=
  match b with
  | Some bs => (Some (length bs), None, w)
  | None => (None, Some "no configuration", w)
  end.

(** Identifiers: "u", "u'", "u''", ... *)
Definition NewID (w : World) : string * World :=
  (String "u" (string_of_list_ascii (repeat "'"%char (next_id w))),
   mkWorld (insts w) (S (next_id w))).

Definition TypeString (t : Type_) : string :=
  match t with
  | TypeUnit => "unit"
  | TypeTextPlain => "text_plain"
  | TypeTextMarkdown => "text_markdown"
  | TypeTextCode => "text_code"
  | TypeTodo => "todo"
  | TypeList => "list"
  end.

Definition env (m : Mode) : Env World Storage Err :=
  mkEnv Create IsCreated Remove (SaveUnit m) (LoadUnit m) (RemoveUnit m)
        MarshalJSON NewID UnitPkg.Equal TypeString.

End Mem.




(* ===================================================================== *)
(** ** Properties of runs *)
(* ===================================================================== *)

Section Properties.

Context {World Storage Err : Type} (E : Env World Storage Err).

(** The type tags of the five simple variants, in the order of the fixtures. *)
Definition simple_types : list Type_ :=
  [TypeUnit; TypeTextPlain; TypeTextMarkdown; TypeTextCode; TypeTodo].

(** The names of the sub-tests a scenario starts: one per simple unit type
    in the simple unit types scenario, none anywhere else. *)
Definition nested_names (ttl : string) : list string :=
  if String.eqb ttl "Storage can handle all supported simple unit types"
  then map (TypeString E) simple_types
  else [].

(** The same, read from the specification: the list scenario too is said to
    start one sub-test per unit type. *)
Definition nested_names_as_specified (ttl : string) : list string :=
  if String.eqb ttl "Storage can handle all supported simple unit types"
     || String.eqb ttl "Storage can handle list unit"
  then map (TypeString E) simple_types
  else [].

(** A run registered one sub-test per catalogue entry, under its title and in
    order, each with the nested sub-tests [nested] gives it. *)
Definition registers (nested : string -> list string)
    (c : CreateFunc World Storage) (l : LoadFromConfigFunc World Storage Err)
    (w : World) : Prop :=
  map (fun r => (name r, map (@name Storage Err) (subs r))) (suite_reports E c l w) =
  map (fun tc => (title tc, nested (title tc))) (tests E).

Definition suite_panics (c : CreateFunc World Storage)
    (l : LoadFromConfigFunc World Storage Err) (w : World) : bool :=
  let '(r, _, _) := RunStorageTests E 0 c l w in
  match r with
  | Panic => true
  | _ => false
  end.

(** What an assertion demands of the value it was given. *)
Definition nil_value (v : Value Storage) : Prop :=
  match v with
  | VUnit u => u = None
  | VStorage s => s = None
  | VBytes b => b = None
  end.

Definition demands (k : Expectation Storage Err) : Prop :=
  match k with
  | NoError e => e = None
  | IsError e => e <> None
  | IsTrue b => b = true
  | IsFalse b => b = false
  | IsNil v => nil_value v
  | NotNil v => ~ nil_value v
  end.

(** Every assertion of a log is met. *)
Fixpoint all_met (lg : list (Event Storage Err)) : Prop :=
  match lg with
  | [] => True
  | Call _ :: lg' => all_met lg'
  | Assert k :: lg' => demands k /\ all_met lg'
  end.

(** Unit operations, and whether a log has one after a [Remove]. *)
Definition is_unit_op (e : Event Storage Err) : bool :=
  match e with
  | Call (CSaveUnit _ _ _) | Call (CLoadUnit _ _ _ _) | Call (CRemoveUnit _ _ _) => true
  | _ => false
  end.

Definition is_remove (e : Event Storage Err) : bool :=
  match e with
  | Call (CRemove _ _) => true
  | _ => false
  end.

Fixpoint quiet_after_remove (lg : list (Event Storage Err)) : bool :=
  match lg with
  | [] => true
  | e :: lg' =>
      (if is_remove e then negb (existsb is_unit_op lg') else true)
      && quiet_after_remove lg'
  end.

Definition quiet_report (r : Report Storage Err) : bool :=
  quiet_after_remove (log r)
  && forallb (fun r' => quiet_after_remove (log r')) (subs r).

(** What one catalogue entry does on every world, as far as registration
    goes: it files exactly one report, under its title; unless it panicked,
    [t.Run] returns and the nested sub-tests are those of [nested_names]. *)
Definition well_shaped (c : CreateFunc World Storage)
    (l : LoadFromConfigFunc World Storage Err)
    (tc : TestCase World Storage Err) : Prop :=
  forall w, exists r o lg sb w',
    run_case E tc c l w = (r, [OSub 0 (mkReport (title tc) o lg sb)], w') /\
    quiet_report (mkReport (title tc) o lg sb) = true /\
    (r = Panic \/
     (exists b, r = Ok b) /\ map (@name Storage Err) sb = nested_names (title tc)).

(** The claim that an instance that was created and then removed must refuse
    every unit operation, as a property of a backend. *)
Definition unusable_when_removed (c : CreateFunc World Storage) (w : World) : Prop :=
  let '(s, w1) := c w in
  let '(e1, w2) := Create E s w1 in
  let '(e2, w3) := Remove E s w2 in
  e1 = None -> e2 = None ->
  forall (u : Unit) (id : string),
    fst (SaveUnit E s (Some u) w3) <> None /\
    fst (RemoveUnit E s (Some u) w3) <> None /\
    (let '(r, e, _) := LoadUnit E s id w3 in e <> None /\ r = None).

End Properties.

(** The suite requires a property of backends when every backend on which the
    whole run goes through without a failure has it. *)
Definition suite_requires
    (P : forall World Storage Err : Type,
         Env World Storage Err -> CreateFunc World Storage -> World -> Prop) : Prop :=
  forall (World Storage Err : Type) (E : Env World Storage Err)
         (c : CreateFunc World Storage) (l : LoadFromConfigFunc World Storage Err)
         (w : World),
    suite_passes E c l w = true -> P World Storage Err E c w.

(* ===================================================================== *)
(** ** Properties of whole runs *)
(* ===================================================================== *)

Section RunProperties.

Context {World Storage Err : Type} (E : Env World Storage Err).

(** The storage a call is made on, and the storage a call hands out. *)
Definition receiver (cl : CallEv Storage Err) : option Storage :=
  match cl with
  | CNew _ | CLoadFromConfig _ _ _ => None
  | CCreate s _ | CIsCreated s _ | CRemove s _ | CSaveUnit s _ _
  | CLoadUnit s _ _ _ | CRemoveUnit s _ _ | CMarshal s _ _ => Some s
  end.

Definition obtained (cl : CallEv Storage Err) : option Storage :=
  match cl with
  | CNew s => Some s
  | CLoadFromConfig _ o _ => o
  | _ => None
  end.

(** Every method call of a log is made on a storage that the same log got
    before, from the factory or from [loadFromConfig]. *)
Fixpoint scoped (known : list Storage) (lg : list (Event Storage Err)) : Prop :=
  match lg with
  | [] => True
  | Assert _ :: lg' => scoped known lg'
  | Call cl :: lg' =>
      match receiver cl with
      | Some s => In s known
      | None => True
      end /\
      scoped (match obtained cl with
              | Some s => s :: known
              | None => known
              end) lg'
  end.

(** The error a call returned, for the calls that return one. *)
Definition returned_error (cl : CallEv Storage Err) : option (error Err) :=
  match cl with
  | CNew _ | CIsCreated _ _ => None
  | CCreate _ e | CRemove _ e | CSaveUnit _ _ e | CLoadUnit _ _ _ e
  | CRemoveUnit _ _ e | CMarshal _ _ e | CLoadFromConfig _ _ e => Some e
  end.

(** Every error a call returned is what the very next assertion is about. *)
Fixpoint errors_checked (lg : list (Event Storage Err)) : Prop :=
  match lg with
  | [] => True
  | Assert _ :: lg' => errors_checked lg'
  | Call cl :: lg' =>
      match returned_error cl with
      | None => True
      | Some e =>
          match lg' with
          | Assert (NoError e') :: _ | Assert (IsError e') :: _ => e' = e
          | _ => False
          end
      end /\
      errors_checked lg'
  end.

(** A property of logs, of a report and of the reports nested in it. *)
Definition every_log (P : list (Event Storage Err) -> Prop)
    (r : Report Storage Err) : Prop :=
  P (log r) /\ Forall (fun r' => P (log r')) (subs r).

Definition config_title : string :=
  "Directory config can be JSON serialized/deserialized ".

(** The scenarios that call a method on a value that may be nil. *)
Definition can_panic (ttl : string) : bool :=
  String.eqb ttl "Storage can handle all supported simple unit types"
  || String.eqb ttl "Storage can handle list unit"
  || String.eqb ttl config_title.

(** How the report of an entry reads in a run without a failure. *)
Definition expected_outcome (l : LoadFromConfigFunc World Storage Err)
    (ttl : string) : Outcome :=
  if String.eqb ttl config_title && is_none l then Skipped else Passed.

(** What holds of the report [rep] of the entry [tc], filed by a [t.Run] that
    ended with [r]. *)
Definition entry_facts (l : LoadFromConfigFunc World Storage Err)
    (tc : TestCase World Storage Err) (r : Res bool) (rep : Report Storage Err) : Prop :=
  name rep = title tc /\
  (r = Panic <-> outcome rep = Panicked) /\
  (r = Panic -> can_panic (title tc) = true) /\
  (outcome rep = Skipped <-> String.eqb (title tc) config_title && is_none l = true) /\
  every_log (scoped []) rep /\
  every_log errors_checked rep /\
  Forall (fun r' => subs r' = [] /\ outcome r' <> Skipped) (subs rep) /\
  (r <> Panic -> Forall (fun r' => outcome r' <> Panicked) (subs rep)).

(** An entry files exactly one report, whatever the world it starts from. *)
Definition files_one
    (P : TestCase World Storage Err -> Res bool -> Report Storage Err -> Prop)
    (c : CreateFunc World Storage) (l : LoadFromConfigFunc World Storage Err)
    (tc : TestCase World Storage Err) : Prop :=
  forall w, exists r rep w',
    run_case E tc c l w = (r, [OSub 0 rep], w') /\ r <> Goexit /\ P tc r rep.

(** The reports of a run over a list of entries: one per entry, in order,
    until the list is through or an entry panics. *)
Inductive ran (P : TestCase World Storage Err -> Res bool -> Report Storage Err -> Prop)
  : list (TestCase World Storage Err) -> Res unit -> list (Report Storage Err) -> Prop :=
| ran_nil : ran P [] (Ok tt) []
| ran_ok tc b rep tcs r reps :
    P tc (Ok b) rep -> ran P tcs r reps -> ran P (tc :: tcs) r (rep :: reps)
| ran_panic tc rep tcs :
    P tc Panic rep -> ran P (tc :: tcs) Panic [rep].


(** A fresh instance, taken from the factory in the world [w], says that it
    is not created. *)
Definition fresh_not_created (c : CreateFunc World Storage) (w : World) : Prop :=
  let '(s, w1) := c w in fst (IsCreated E s w1) = false.

End RunProperties.

(* ===================================================================== *)
(** ** What the scenarios require, for every backend *)
(* ===================================================================== *)

Section Facts.

Context {World Storage Err : Type} (E : Env World Storage Err).

(** A scenario is run symbolically: each call on a collaborator is named by
    what it returns, in the order the body makes them. *)
Ltac call_step :=
  match goal with
  | c : CreateFunc _ _ |- _ =>
      match goal with
      | |- context [c ?w] => destruct (c w) as [? ?] eqn:?
      end
  | f : bytes -> _ -> _ |- _ =>
      match goal with
      | |- context [f ?b ?w] => destruct (f b w) as [[? ?] ?] eqn:?
      end
  | |- context [NewID E ?w] => destruct (NewID E w) as [? ?] eqn:?
  | |- context [Create E ?s ?w] => destruct (Create E s w) as [? ?] eqn:?
  | |- context [IsCreated E ?s ?w] => destruct (IsCreated E s w) as [? ?] eqn:?
  | |- context [Remove E ?s ?w] => destruct (Remove E s w) as [? ?] eqn:?
  | |- context [SaveUnit E ?s ?u ?w] => destruct (SaveUnit E s u w) as [? ?] eqn:?
  | |- context [LoadUnit E ?s ?i ?w] => destruct (LoadUnit E s i w) as [[? ?] ?] eqn:?
  | |- context [RemoveUnit E ?s ?u ?w] => destruct (RemoveUnit E s u w) as [? ?] eqn:?
  | |- context [MarshalJSON E ?s ?w] => destruct (MarshalJSON E s w) as [[? ?] ?] eqn:?
  end.

(** Looking an entry up by its title. *)
Ltac pick_scenario :=
  unfold scenario;
  cbn [find tests title String.eqb Ascii.eqb Bool.eqb].

Ltac open_body :=
  cbv beta iota zeta delta
    [run_case t_Run title testFunc filed crashed
     test_not_created_initially test_can_be_created test_unusable_before_created
     test_remove_not_created test_remove_created test_not_created_when_removed
     test_simple_unit_types test_list_unit test_nil_save test_nil_remove
     test_empty_id test_config_roundtrip simple_unit_body
     bind ret panic deref call_c call_l range
     s_Create s_IsCreated s_Remove s_SaveUnit s_LoadUnit s_RemoveUnit json_Marshal
     new_with NewUnit NewTextPlain NewTextMarkdown NewTextCode NewTodo NewList
     apply_options fold_left OptionTitle OptionTextPlainData OptionTextMarkdownData
     OptionTextCodeData OptionTextCodeLanguage with_two_items NewItem SetData SetDone
     SetTodoItems SetListItems Data Done ID TypeOf
     expect assert_NoError assert_Error assert_True assert_False assert_Nil
     assert_NotNil assert_New assert_t t_SkipNow].

(** Runs a body up to the first place where it depends on a returned value. *)
Ltac exec := pick_scenario; open_body; repeat (call_step; cbv beta iota zeta).

(** A nil check decides how the body goes on. *)
Ltac branch_step :=
  match goal with
  | |- context [match ?o with Some _ => _ | None => _ end] => is_var o; destruct o
  end.

Ltac exec_all := open_body; repeat (first [call_step | branch_step]; cbv beta iota zeta).

Lemma holds_demands (k : Expectation Storage Err) : holds k = true <-> demands k.
Proof.
  destruct k as [e|e|b|b|v|v]; cbn.
  - destruct e; cbn; split; congruence.
  - destruct e; cbn; split; congruence.
  - reflexivity.
  - destruct b; cbn; split; congruence.
  - destruct v as [[x|]|[x|]|[x|]]; cbn; split; congruence.
  - destruct v as [[x|]|[x|]|[x|]]; cbn; split; congruence.
Qed.

Lemma no_failed_event (lg : list (Event Storage Err)) :
  existsb (@failed_event Storage Err) lg = false <-> all_met lg.
Proof.
  induction lg as [|[cl|k] lg IH]; cbn.
  - tauto.
  - exact IH.
  - rewrite orb_false_iff, negb_false_iff, holds_demands, IH. tauto.
Qed.

(** A test passes when it neither panicked nor was skipped, every assertion
    made on it was met and no sub-test of it failed. *)
Lemma outcome_of_Pass (r : Res unit) (t : T) (outs : list (Out Storage Err)) :
  outcome_of r t outs = Passed <->
  r <> Panic /\ all_met (own_events t outs) /\
  existsb (@failed_report Storage Err) (own_subs t outs) = false /\
  own_skip t outs = false.
Proof.
  unfold outcome_of. rewrite <- no_failed_event.
  destruct r; destruct (existsb (@failed_event _ _) _); destruct (existsb (@failed_report _ _) _);
    destruct (own_skip t outs); cbn; intuition congruence.
Qed.

(** Closes a goal that gives the report of a finished scenario and says when
    it passes. *)
Ltac verdict :=
  match goal with
  | |- context [outcome_of ?r ?t ?outs] => exists (outcome_of r t outs)
  end;
  split; [reflexivity | rewrite outcome_of_Pass; cbn; intuition congruence].

(** C8. [Remove()] must succeed whether or not the instance was ever
    created: the scenario "can be removed if not created before" calls
    [Remove] on a fresh instance and passes exactly when it returns no error;
    the scenario "can be removed if was created before" creates first and
    passes exactly when both [Create] and [Remove] return no error. *)
Theorem remove_always_succeeds (c : CreateFunc World Storage)
    (l : LoadFromConfigFunc World Storage Err) (w : World) :
  (let '(s, w1) := c w in
   let '(e, w2) := Remove E s w1 in
   exists o,
     run_case E (scenario E "Storage can be removed if not created before") c l w =
       filed "Storage can be removed if not created before" o
             [Call (CNew s); Call (CRemove s e); Assert (NoError e)] [] w2 /\
     (o = Passed <-> e = None)) /\
  (let '(s, w1) := c w in
   let '(e1, w2) := Create E s w1 in
   let '(e2, w3) := Remove E s w2 in
   exists o,
     run_case E (scenario E "Storage can be removed if was created before") c l w =
       filed "Storage can be removed if was created before" o
             [Call (CNew s); Call (CCreate s e1); Assert (NoError e1);
              Call (CRemove s e2); Assert (NoError e2)] [] w3 /\
     (o = Passed <-> e1 = None /\ e2 = None)).
Proof.
  split; exec; verdict.
Qed.

(** C7. In the scenario "Storage is not created when removed" one instance
    is created and removed, both without error, and a second instance taken
    from the same factory must then answer [IsCreated()] with false. *)
Theorem not_created_when_removed (c : CreateFunc World Storage)
    (l : LoadFromConfigFunc World Storage Err) (w : World) :
  let '(s, w1) := c w in
  let '(e1, w2) := Create E s w1 in
  let '(e2, w3) := Remove E s w2 in
  let '(s', w4) := c w3 in
  let '(b, w5) := IsCreated E s' w4 in
  exists o,
    run_case E (scenario E "Storage is not created when removed") c l w =
      filed "Storage is not created when removed" o
            [Call (CNew s); Call (CCreate s e1); Assert (NoError e1);
             Call (CRemove s e2); Assert (NoError e2);
             Call (CNew s'); Call (CIsCreated s' b); Assert (IsFalse b)] [] w5 /\
    (o = Passed <-> e1 = None /\ e2 = None /\ b = false).
Proof.
  exec; verdict.
Qed.

(** C9. On a created instance the suite requires [SaveUnit(nil)] to fail,
    [RemoveUnit(nil)] to fail, and [LoadUnit("")] to fail and to return no
    unit: each of the three scenarios creates a fresh instance, makes that one
    call and passes exactly when [Create] returned no error and the call
    returned an error (and, for the load, a nil unit). *)
Theorem nil_and_empty_rejected (c : CreateFunc World Storage)
    (l : LoadFromConfigFunc World Storage Err) (w : World) :
  (let '(s, w1) := c w in
   let '(e1, w2) := Create E s w1 in
   let '(e2, w3) := SaveUnit E s None w2 in
   exists o,
     run_case E (scenario E "Nil unit cannot be saved") c l w =
       filed "Nil unit cannot be saved" o
             [Call (CNew s); Call (CCreate s e1); Assert (NoError e1);
              Call (CSaveUnit s None e2); Assert (IsError e2)] [] w3 /\
     (o = Passed <-> e1 = None /\ e2 <> None)) /\
  (let '(s, w1) := c w in
   let '(e1, w2) := Create E s w1 in
   let '(e2, w3) := RemoveUnit E s None w2 in
   exists o,
     run_case E (scenario E "Nil unit cannot be removed") c l w =
       filed "Nil unit cannot be removed" o
             [Call (CNew s); Call (CCreate s e1); Assert (NoError e1);
              Call (CRemoveUnit s None e2); Assert (IsError e2)] [] w3 /\
     (o = Passed <-> e1 = None /\ e2 <> None)) /\
  (let '(s, w1) := c w in
   let '(e1, w2) := Create E s w1 in
   let '(lu, e2, w3) := LoadUnit E s "" w2 in
   exists o,
     run_case E (scenario E "Empty ID cannot be used to load unit") c l w =
       filed "Empty ID cannot be used to load unit" o
             [Call (CNew s); Call (CCreate s e1); Assert (NoError e1);
              Call (CLoadUnit s "" lu e2); Assert (IsError e2);
              Assert (IsNil (VUnit lu))] [] w3 /\
     (o = Passed <-> e1 = None /\ e2 <> None /\ lu = None)).
Proof.
  repeat split; exec; verdict.
Qed.

(** C6. Without a [loadFromConfig] (nil) the configuration scenario is
    skipped: its report is [Skipped], which is neither [Passed] nor [Failed] and
    does not count as a failure, it made no call and no assertion, and it
    left the world as it was.  It is the only scenario that is skipped: any
    other one runs as it would with any [loadFromConfig]. *)
Theorem skipped_without_loadFromConfig (c : CreateFunc World Storage) (w : World) :
  run_case E (scenario E "Directory config can be JSON serialized/deserialized ") c None w =
    filed "Directory config can be JSON serialized/deserialized " Skipped [] [] w /\
  Skipped <> Passed /\ Skipped <> Failed /\ is_failure Skipped = false /\
  Forall (fun tc =>
            run_case E tc c None w = filed (title tc) Skipped [] [] w \/
            forall l, run_case E tc c l w = run_case E tc c None w)
         (tests E).
Proof.
  split; [reflexivity|].
  repeat (split; [discriminate || reflexivity|]).
  unfold tests.
  repeat (constructor; [first [right; intros; reflexivity | left; reflexivity]|]).
  constructor.
Qed.

(** C10. No scenario but the configuration round-trip uses the
    [loadFromConfig] parameter: with any two values of it, nil included, the
    body is the same computation, so that a run makes the same calls and
    assertions, files the same report and leaves the same world. *)
Theorem loadFromConfig_unused_elsewhere (tc : TestCase World Storage Err) :
  In tc (tests E) ->
  title tc <> "Directory config can be JSON serialized/deserialized " ->
  forall (c : CreateFunc World Storage) (l1 l2 : LoadFromConfigFunc World Storage Err),
    (forall (t : T) (is_ : Assertions),
        testFunc tc t c l1 is_ = testFunc tc t c l2 is_) /\
    (forall w : World, run_case E tc c l1 w = run_case E tc c l2 w).
Proof.
  intros Hin Hne c l1 l2.
  unfold tests in Hin. cbn [In] in Hin.
  repeat (destruct Hin as [<- | Hin]; [try (split; intros; reflexivity)|]).
  - exfalso. apply Hne. reflexivity.
  - contradiction.
Qed.

(** C3. With a [loadFromConfig] the configuration scenario builds a
    plain-text unit titled "MyUnit" with data "MyData", creates a storage,
    saves the unit, serializes the storage, hands the blob to
    [loadFromConfig] and loads the unit's identifier from the instance that
    comes back.  It passes exactly when every step returned no error, the
    blob and the loaded unit are not nil and the loaded unit equals the
    original.  When [loadFromConfig] gives back no instance the method call
    on it panics. *)
Theorem config_roundtrip (c : CreateFunc World Storage)
    (f : bytes -> World -> option Storage * error Err * World) (w : World) :
  let ttl := "Directory config can be JSON serialized/deserialized " in
  let '(i, w1) := NewID E w in
  let u := UTextPlain i "MyUnit" "MyData" in
  let '(s, w2) := c w1 in
  let '(e1, w3) := Create E s w2 in
  let '(e2, w4) := SaveUnit E s (Some u) w3 in
  let '(config, e3, w5) := MarshalJSON E s w4 in
  let '(sl, e4, w6) := f config w5 in
  let first :=
    [Call (CNew s); Call (CCreate s e1); Assert (NoError e1);
     Call (CSaveUnit s (Some u) e2); Assert (NoError e2);
     Call (CMarshal s config e3); Assert (NoError e3); Assert (NotNil (VBytes config));
     Call (CLoadFromConfig config sl e4); Assert (NoError e4);
     Assert (NotNil (VStorage sl))] in
  match sl with
  | None => run_case E (scenario E ttl) c (Some f) w = crashed ttl first [] w6
  | Some sl' =>
      let '(lu, e5, w7) := LoadUnit E sl' (ID u) w6 in
      exists o,
        run_case E (scenario E ttl) c (Some f) w =
          filed ttl o
                (first ++ [Call (CLoadUnit sl' (ID u) lu e5); Assert (NoError e5);
                           Assert (NotNil (VUnit lu));
                           Assert (IsTrue (Equal E (Some u) lu))]) [] w7 /\
        (o = Passed <->
         e1 = None /\ e2 = None /\ e3 = None /\ config <> None /\ e4 = None /\
         e5 = None /\ lu <> None /\ Equal E (Some u) lu = true)
  end.
Proof.
  exec. destruct o as [sl'|]; [|reflexivity].
  exec. verdict.
Qed.

(** C2. The list scenario builds one unit of every simple variant and a list
    holding the five in that order, creates a storage, saves the five
    children one by one and then the list, loads the list by its identifier,
    removes what was loaded and loads its identifier again.  It passes
    exactly when the create, the six saves, the load and the removal return
    no error, the loaded unit equals the list, and the second load returns an
    error and no unit.  When the first load gives back no unit the call of
    [ID] on it panics. *)
Theorem list_unit_roundtrip (c : CreateFunc World Storage)
    (l : LoadFromConfigFunc World Storage Err) (w : World) :
  let ttl := "Storage can handle list unit" in
  let '(i1, w1) := NewID E w in
  let '(i2, w2) := NewID E w1 in
  let '(i3, w3) := NewID E w2 in
  let '(i4, w4) := NewID E w3 in
  let '(i5, w5) := NewID E w4 in
  let '(i6, w6) := NewID E w5 in
  let u1 := UUnit i1 "MyUnit" in
  let u2 := UTextPlain i2 "MyUnit" "MyData" in
  let u3 := UTextMarkdown i3 "MyUnit" "MyData" in
  let u4 := UTextCode i4 "MyUnit" "MyData" "MyLang" in
  let u5 := UTodo i5 "MyUnit" [mkTodoItem "Data1" true; mkTodoItem "Data2" false] in
  let unitList := UList i6 "MyUnit" [u1; u2; u3; u4; u5] in
  let '(s, w7) := c w6 in
  let '(e0, w8) := Create E s w7 in
  let '(e1, w9) := SaveUnit E s (Some u1) w8 in
  let '(e2, w10) := SaveUnit E s (Some u2) w9 in
  let '(e3, w11) := SaveUnit E s (Some u3) w10 in
  let '(e4, w12) := SaveUnit E s (Some u4) w11 in
  let '(e5, w13) := SaveUnit E s (Some u5) w12 in
  let '(e6, w14) := SaveUnit E s (Some unitList) w13 in
  let '(lu, e7, w15) := LoadUnit E s (ID unitList) w14 in
  let '(e8, w16) := RemoveUnit E s lu w15 in
  let first :=
    [Call (CNew s); Call (CCreate s e0); Assert (NoError e0);
     Call (CSaveUnit s (Some u1) e1); Assert (NoError e1);
     Call (CSaveUnit s (Some u2) e2); Assert (NoError e2);
     Call (CSaveUnit s (Some u3) e3); Assert (NoError e3);
     Call (CSaveUnit s (Some u4) e4); Assert (NoError e4);
     Call (CSaveUnit s (Some u5) e5); Assert (NoError e5);
     Call (CSaveUnit s (Some unitList) e6); Assert (NoError e6);
     Call (CLoadUnit s (ID unitList) lu e7); Assert (NoError e7);
     Assert (IsTrue (Equal E (Some unitList) lu));
     Call (CRemoveUnit s lu e8); Assert (NoError e8)] in
  match lu with
  | None => run_case E (scenario E ttl) c l w = crashed ttl first [] w16
  | Some x =>
      let '(r, e9, w17) := LoadUnit E s (ID x) w16 in
      exists o,
        run_case E (scenario E ttl) c l w =
          filed ttl o
                (first ++ [Call (CLoadUnit s (ID x) r e9); Assert (IsError e9);
                           Assert (IsNil (VUnit r))]) [] w17 /\
        (o = Passed <->
         e0 = None /\ e1 = None /\ e2 = None /\ e3 = None /\ e4 = None /\
         e5 = None /\ e6 = None /\ e7 = None /\
         Equal E (Some unitList) (Some x) = true /\ e8 = None /\
         e9 <> None /\ r = None)
  end.
Proof.
  exec. destruct o as [x|]; [|reflexivity].
  exec. verdict.
Qed.



(** [RunStorageTests] runs the entries in the order of the catalogue, each
    one as [run_case] does, from the world the one before left. *)
Lemma RunStorageTests_by_case (c : CreateFunc World Storage)
    (l : LoadFromConfigFunc World Storage Err) :
  RunStorageTests E 0 c l =
  range (tests E) (fun tc => bind (run_case E tc c l) (fun _ => ret tt)).
Proof. reflexivity. Qed.

Lemma all_well_shaped (c : CreateFunc World Storage)
    (l : LoadFromConfigFunc World Storage Err) :
  Forall (well_shaped E c l) (tests E).
Proof.
  unfold tests.
  repeat (apply Forall_cons; [intros w|]); [..|apply Forall_nil].
  all: exec_all.
  all: cbn; do 5 eexists; split; [reflexivity | split; [reflexivity|]].
  all: first [left; reflexivity | right; split; [eexists; reflexivity | reflexivity]].
Qed.

(** Running a list of well-shaped entries the way [RunStorageTests] does:
    the reports come out in order, one per entry, up to a panic. *)
Lemma run_well_shaped (c : CreateFunc World Storage)
    (l : LoadFromConfigFunc World Storage Err)
    (tcs : list (TestCase World Storage Err)) :
  Forall (well_shaped E c l) tcs ->
  forall w, exists r outs w',
    range tcs (fun test =>
                 bind (t_Run 0 (title test)
                         (fun t => testFunc test t c l (assert_New t)))
                      (fun _ => ret tt)) w = (r, outs, w') /\
    r <> Goexit /\
    forallb (@quiet_report Storage Err) (own_subs 0 outs) = true /\
    (r = Panic \/
     map (fun r => (name r, map (@name Storage Err) (subs r))) (own_subs 0 outs) =
     map (fun tc => (title tc, nested_names E (title tc))) tcs).
Proof.
  induction 1 as [|tc tcs Htc _ IH]; intros w.
  - exists (Ok tt), [], w. cbn. repeat split; try discriminate. now right.
  - destruct (Htc w) as (r & o & lg & sb & w1 & Hrun & Hq & Hr).
    unfold run_case in Hrun.
    cbn [range]. unfold bind at 1. unfold bind at 1. rewrite Hrun.
    destruct Hr as [-> | [[b ->] Hsb]].
    + do 3 eexists. split; [reflexivity|].
      split; [discriminate|]. split; [|now left].
      cbn. now rewrite Hq.
    + cbn [ret].
      destruct (IH w1) as (r' & outs' & w' & Hrest & Hg & Hq' & Hr').
      rewrite Hrest.
      do 3 eexists. split; [reflexivity|].
      split; [exact Hg|].
      change (own_subs 0 (([OSub 0 (mkReport (title tc) o lg sb)] ++ []) ++ outs'))
        with (mkReport (title tc) o lg sb :: own_subs 0 outs').
      cbn [forallb map name subs].
      split; [now rewrite Hq, Hq'|].
      destruct Hr' as [-> | Hr']; [now left|right].
      now rewrite Hsb, Hr'.
Qed.

Lemma run_suite (c : CreateFunc World Storage)
    (l : LoadFromConfigFunc World Storage Err) (w : World) :
  exists r outs w',
    RunStorageTests E 0 c l w = (r, outs, w') /\
    forallb (@quiet_report Storage Err) (own_subs 0 outs) = true /\
    (r = Panic \/
     map (fun r => (name r, map (@name Storage Err) (subs r))) (own_subs 0 outs) =
     map (fun tc => (title tc, nested_names E (title tc))) (tests E)).
Proof.
  destruct (run_well_shaped (all_well_shaped c l) w) as (r & outs & w' & Hrun & _ & Hq & Hr).
  exists r, outs, w'. unfold RunStorageTests. now rewrite Hrun.
Qed.

(** C4, as amended.  On a fresh instance that was never created the scenario
    "Storage can not be used before it will be created" saves and removes a
    new plain unit and loads the identifier "123", and passes exactly when
    the first two calls return an error and the load returns an error and no
    unit.  A removed instance is not constrained: in no report of a run does
    a unit operation follow a [Remove]. *)
Theorem unusable_before_created (c : CreateFunc World Storage)
    (l : LoadFromConfigFunc World Storage Err) (w : World) :
  (let '(s, w1) := c w in
   let '(i, w2) := NewID E w1 in
   let u := UUnit i "" in
   let '(e1, w3) := SaveUnit E s (Some u) w2 in
   let '(e2, w4) := RemoveUnit E s (Some u) w3 in
   let '(lu, e3, w5) := LoadUnit E s "123" w4 in
   exists o,
     run_case E (scenario E "Storage can not be used before it will be created") c l w =
       filed "Storage can not be used before it will be created" o
             [Call (CNew s);
              Call (CSaveUnit s (Some u) e1); Assert (IsError e1);
              Call (CRemoveUnit s (Some u) e2); Assert (IsError e2);
              Call (CLoadUnit s "123" lu e3); Assert (IsError e3);
              Assert (IsNil (VUnit lu))] [] w5 /\
     (o = Passed <-> e1 <> None /\ e2 <> None /\ e3 <> None /\ lu = None)) /\
  forallb (@quiet_report Storage Err) (suite_reports E c l w) = true.
Proof.
  split.
  - exec; verdict.
  - destruct (run_suite c l w) as (r & outs & w' & Hrun & Hq & _).
    unfold suite_reports. now rewrite Hrun.
Qed.

(** C5, as amended.  A run of [RunStorageTests] that does not panic files one
    report per catalogue entry, under its title and in the order of the
    catalogue; the titles are pairwise distinct.  The simple unit types
    scenario files one nested report per simple unit type, named after the
    type, so that every variant is reported on its own; no other scenario,
    the list scenario included, starts a nested sub-test. *)
Theorem one_subtest_per_entry (c : CreateFunc World Storage)
    (l : LoadFromConfigFunc World Storage Err) (w : World) :
  suite_panics E c l w = false ->
  registers E (nested_names E) c l w /\
  NoDup (map (@title World Storage Err) (tests E)) /\
  NoDup simple_types.
Proof.
  intros Hp.
  destruct (run_suite c l w) as (r & outs & w' & Hrun & _ & Hr).
  unfold suite_panics in Hp. unfold registers, suite_reports.
  rewrite Hrun in *.
  split; [|split].
  - destruct Hr as [-> | Hr]; [discriminate | exact Hr].
  - unfold tests. cbn [map title].
    repeat (constructor; [cbn [In]; intuition discriminate|]).
    constructor.
  - unfold simple_types.
    repeat (constructor; [cbn [In]; intuition discriminate|]).
    constructor.
Qed.

(** X1. The scenario "Storage is not created initially ..." takes a fresh
    instance and asks whether it is created; it passes exactly when the
    answer is false. *)
Theorem not_created_initially (c : CreateFunc World Storage)
    (l : LoadFromConfigFunc World Storage Err) (w : World) :
  let ttl :=
    "Storage is not created initially when initialized first time with given arguments" in
  let '(s, w1) := c w in
  let '(b, w2) := IsCreated E s w1 in
  exists o,
    run_case E (scenario E ttl) c l w =
      filed ttl o [Call (CNew s); Call (CIsCreated s b); Assert (IsFalse b)] [] w2 /\
    (o = Passed <-> b = false).
Proof.
  exec; verdict.
Qed.

(** X2. The scenario "Storage can be successfully created" creates a fresh
    instance and then asks whether it is created; it passes exactly when
    [Create] returns no error and the answer is true.  The question is asked
    even when [Create] failed. *)
Theorem can_be_created (c : CreateFunc World Storage)
    (l : LoadFromConfigFunc World Storage Err) (w : World) :
  let ttl := "Storage can be successfully created" in
  let '(s, w1) := c w in
  let '(e, w2) := Create E s w1 in
  let '(b, w3) := IsCreated E s w2 in
  exists o,
    run_case E (scenario E ttl) c l w =
      filed ttl o [Call (CNew s); Call (CCreate s e); Assert (NoError e);
                   Call (CIsCreated s b); Assert (IsTrue b)] [] w3 /\
    (o = Passed <-> e = None /\ b = true).
Proof.
  exec; verdict.
Qed.

Lemma outcome_of_Panicked (r : Res unit) (t : T) (outs : list (Out Storage Err)) :
  outcome_of r t outs = Panicked <-> r = Panic.
Proof.
  unfold outcome_of.
  destruct r;
    repeat match goal with
           | |- context [if ?b then _ else _] => destruct b
           end;
    split; congruence.
Qed.

Lemma outcome_of_Skipped (r : Res unit) (t : T) (outs : list (Out Storage Err)) :
  outcome_of r t outs = Skipped -> own_skip t outs = true.
Proof.
  unfold outcome_of.
  destruct r; destruct (own_skip t outs);
    repeat match goal with
           | |- context [if ?b then _ else _] => destruct b
           end;
    congruence.
Qed.

(** Closes one of the facts of [entry_facts] about a report that was
    computed by running a scenario. *)
Ltac fact :=
  cbn [name outcome log subs title];
  first
    [ solve [reflexivity]
    | solve [rewrite outcome_of_Panicked; split; congruence]
    | solve [intros HP; first [reflexivity | discriminate HP | exfalso; apply HP; reflexivity]]
    | solve [split; intros; reflexivity]
    | solve [split; [intros HS; apply outcome_of_Skipped in HS; discriminate HS
                    | discriminate]]
    | solve [unfold every_log; cbn [log subs];
             split; [|repeat first [apply Forall_nil | apply Forall_cons]];
             cbn; repeat split; auto]
    | solve [repeat first
               [ apply Forall_nil
               | apply Forall_cons;
                 [split; [reflexivity
                         | cbn [outcome]; intros HS;
                           apply outcome_of_Skipped in HS; discriminate HS]|] ]]
    | solve [intros _;
             repeat first
               [ apply Forall_nil
               | apply Forall_cons;
                 [cbn [outcome]; intros HS;
                  apply outcome_of_Panicked in HS; discriminate HS|] ]] ].

Lemma all_entry_facts (c : CreateFunc World Storage)
    (l : LoadFromConfigFunc World Storage Err) :
  Forall (files_one E (entry_facts l) c l) (tests E).
Proof.
  unfold tests.
  repeat (apply Forall_cons; [intros w|]); [..|apply Forall_nil].
  all: unfold entry_facts; exec_all.
  all: cbn -[outcome_of scoped errors_checked every_log];
       do 3 eexists; split; [reflexivity | split; [discriminate|]].
  all: repeat (split; [fact|]).
  all: fact.
Qed.

(** Running a list of entries that each file one report: the reports of the
    run are those of [ran]. *)
Lemma run_ran (P : TestCase World Storage Err -> Res bool -> Report Storage Err -> Prop)
    (c : CreateFunc World Storage) (l : LoadFromConfigFunc World Storage Err)
    (tcs : list (TestCase World Storage Err)) :
  Forall (files_one E P c l) tcs ->
  forall w, exists r outs w',
    range tcs (fun tc => bind (run_case E tc c l) (fun _ => ret tt)) w = (r, outs, w') /\
    ran P tcs r (own_subs 0 outs).
Proof.
  induction 1 as [|tc tcs Htc _ IH]; intros w.
  - exists (Ok tt), [], w. split; [reflexivity | constructor].
  - destruct (Htc w) as (r & rep & w1 & Hrun & Hg & HP).
    cbn [range]. unfold bind at 1. unfold bind at 1. rewrite Hrun.
    destruct r as [b| |]; [|contradiction|].
    + cbn [ret].
      destruct (IH w1) as (r' & outs' & w' & Hrest & Hran).
      rewrite Hrest.
      do 3 eexists. split; [reflexivity|].
      change (own_subs 0 (([OSub 0 rep] ++ []) ++ outs')) with (rep :: own_subs 0 outs').
      econstructor; eassumption.
    + do 3 eexists. split; [reflexivity|].
      change (own_subs 0 [OSub 0 rep]) with [rep].
      now apply ran_panic.
Qed.

Lemma suite_ran (c : CreateFunc World Storage)
    (l : LoadFromConfigFunc World Storage Err) (w : World) :
  exists r outs w',
    RunStorageTests E 0 c l w = (r, outs, w') /\
    ran (entry_facts l) (tests E) r (own_subs 0 outs).
Proof.
  exact (run_ran (all_entry_facts c l) w).
Qed.

Lemma ran_Forall
    (P : TestCase World Storage Err -> Res bool -> Report Storage Err -> Prop)
    (Q : Report Storage Err -> Prop) tcs r reps :
  (forall tc r' rep, P tc r' rep -> Q rep) -> ran P tcs r reps -> Forall Q reps.
Proof.
  intros HPQ. induction 1; repeat constructor; eauto.
Qed.

Lemma suite_Forall (Q : Report Storage Err -> Prop)
    (c : CreateFunc World Storage) (l : LoadFromConfigFunc World Storage Err) (w : World) :
  (forall tc r rep, entry_facts l tc r rep -> Q rep) ->
  Forall Q (suite_reports E c l w).
Proof.
  intros HQ.
  destruct (suite_ran c l w) as (r & outs & w' & Hrun & Hran).
  unfold suite_reports. rewrite Hrun.
  exact (ran_Forall _ HQ Hran).
Qed.


(** X7. No scenario works on a storage it did not take itself: in every
    report, and in every nested one, each method call is made on a storage
    that the same test got before from the factory or from
    [loadFromConfig]. *)
Theorem storages_are_not_shared (c : CreateFunc World Storage)
    (l : LoadFromConfigFunc World Storage Err) (w : World) :
  Forall (every_log (scoped [])) (suite_reports E c l w).
Proof.
  apply suite_Forall. intros tc r rep H. apply H.
Qed.

(** X9. No error is dropped: in every report, and in every nested one, each
    call that returns an error is followed at once by an assertion on that
    very error. *)
Theorem every_error_is_asserted (c : CreateFunc World Storage)
    (l : LoadFromConfigFunc World Storage Err) (w : World) :
  Forall (every_log (@errors_checked Storage Err)) (suite_reports E c l w).
Proof.
  apply suite_Forall. intros tc r rep H. apply H.
Qed.

(** X8. With a factory that hands out a usable storage, a panic can only
    come out of the three scenarios that call a method on what a load or
    [loadFromConfig] returned: simple unit types, list unit and the
    configuration round trip. *)
Theorem only_three_can_panic (c : CreateFunc World Storage)
    (l : LoadFromConfigFunc World Storage Err) (w : World) :
  Forall (fun rep =>
            outcome rep = Panicked ->
            In (name rep) ["Storage can handle all supported simple unit types";
                           "Storage can handle list unit"; config_title])
         (suite_reports E c l w).
Proof.
  apply suite_Forall.
  intros tc r rep (Hn & Hp & Hc & _) Ho.
  apply Hp, Hc in Ho. rewrite Hn.
  unfold can_panic in Ho.
  rewrite !orb_true_iff, !String.eqb_eq in Ho.
  cbn [In]. intuition congruence.
Qed.

Lemma ran_prefix tcs r reps (l : LoadFromConfigFunc World Storage Err) :
  ran (entry_facts l) tcs r reps ->
  map (@name Storage Err) reps =
    firstn (length reps) (map (@title World Storage Err) tcs) /\
  (r <> Panic ->
   length reps = length tcs /\ Forall (fun rep => outcome rep <> Panicked) reps) /\
  (r = Panic ->
   exists pre last,
     reps = pre ++ [last] /\ outcome last = Panicked /\
     Forall (fun rep => outcome rep <> Panicked) pre).
Proof.
  induction 1 as [|tc b rep tcs r reps HP _ IH|tc rep tcs HP].
  - repeat split; try constructor. intros [=].
  - destruct HP as (Hn & Hp & _). destruct IH as (IHn & IHok & IHpanic).
    assert (Hrep : outcome rep <> Panicked) by (intros Ho; apply Hp in Ho; discriminate).
    cbn [map length firstn]. rewrite Hn, <- IHn.
    split; [reflexivity|split].
    + intros Hr. destruct (IHok Hr) as [Hlen Hall]. split; [now rewrite Hlen | now constructor].
    + intros Hr. destruct (IHpanic Hr) as (pre & last & -> & Hlast & Hpre).
      exists (rep :: pre), last. repeat split; [assumption | now constructor].
  - destruct HP as (Hn & Hp & _).
    cbn [map length firstn]. rewrite Hn.
    split; [reflexivity|split].
    + intros Hr. now contradiction Hr.
    + intros _. exists [], rep. repeat split; [now apply Hp | constructor].
Qed.

(** X5. The reports of a run are always filed in the order of the catalogue,
    under its titles, without a gap.  A run that does not panic files all
    twelve and none reads [Panicked]; a run that panics stops there: the
    last report filed is the one that panicked, and it is the only one. *)
Theorem reports_follow_the_catalogue (c : CreateFunc World Storage)
    (l : LoadFromConfigFunc World Storage Err) (w : World) :
  let reps := suite_reports E c l w in
  map (@name Storage Err) reps =
    firstn (length reps) (map (@title World Storage Err) (tests E)) /\
  (suite_panics E c l w = false ->
   length reps = 12 /\ Forall (fun rep => outcome rep <> Panicked) reps) /\
  (suite_panics E c l w = true ->
   exists pre last,
     reps = pre ++ [last] /\ outcome last = Panicked /\
     Forall (fun rep => outcome rep <> Panicked) pre).
Proof.
  destruct (suite_ran c l w) as (r & outs & w' & Hrun & Hran).
  unfold suite_reports, suite_panics. rewrite Hrun. cbv zeta.
  destruct (ran_prefix Hran) as (Hn & Hok & Hpanic).
  split; [exact Hn|split].
  - intros Hr. apply Hok. now destruct r.
  - intros Hr. apply Hpanic. now destruct r.
Qed.

Lemma ran_passing tcs r reps (l : LoadFromConfigFunc World Storage Err) :
  ran (entry_facts l) tcs r reps ->
  r <> Panic ->
  existsb (@failed_report Storage Err) reps = false ->
  map (@outcome Storage Err) reps = map (fun tc => expected_outcome l (title tc)) tcs.
Proof.
  induction 1 as [|tc b rep tcs r reps HP _ IH|tc rep tcs HP]; intros Hr Hf.
  - reflexivity.
  - cbn [existsb] in Hf. apply orb_false_iff in Hf. destruct Hf as [Hrep Hf].
    cbn [map]. rewrite (IH Hr Hf). f_equal.
    destruct HP as (_ & _ & _ & Hs & _).
    unfold expected_outcome, failed_report in *.
    destruct (String.eqb (title tc) config_title && is_none l).
    + now apply Hs.
    + destruct (outcome rep); try discriminate; [reflexivity|].
      destruct Hs as [Hs _]. discriminate (Hs eq_refl).
  - now contradiction Hr.
Qed.

(** X10. What a run without a failure looks like, whatever the backend: all
    twelve reports are there, and each reads [Passed], except that of the
    configuration scenario, which reads [Skipped] when no [loadFromConfig]
    was given. *)
Theorem passing_run_outcomes (c : CreateFunc World Storage)
    (l : LoadFromConfigFunc World Storage Err) (w : World) :
  suite_passes E c l w = true ->
  map (@outcome Storage Err) (suite_reports E c l w) =
  map (fun tc => expected_outcome l (title tc)) (tests E).
Proof.
  destruct (suite_ran c l w) as (r & outs & w' & Hrun & Hran).
  unfold suite_passes, suite_reports. rewrite Hrun.
  intros Hp. destruct r as [[]| |]; try discriminate.
  apply negb_true_iff in Hp.
  apply (ran_passing Hran); [discriminate | exact Hp].
Qed.

(** A test that ran to its end and was not skipped either passed or failed. *)
Lemma outcome_of_Ok (t : T) (outs : list (Out Storage Err)) :
  own_skip t outs = false ->
  outcome_of (Ok tt) t outs = Passed \/ outcome_of (Ok tt) t outs = Failed.
Proof.
  unfold outcome_of. intros ->.
  match goal with
  | |- context [if ?b then _ else _] => destruct b
  end; auto.
Qed.

(** Shows that none of a list of computed reports reads [Panicked]. *)
Ltac none_panicked :=
  repeat (apply Forall_cons;
          [cbn [outcome]; intros HS; apply outcome_of_Panicked in HS; discriminate HS|]);
  apply Forall_nil.

(** X6. The simple unit types scenario makes no call and no assertion of its
    own, and it passes exactly when all five sub-tests were run and passed:
    one failed variant fails the scenario.  The nested reports are filed in
    the order of the fixtures, under the names of their types.  When no
    sub-test panics all five are there; when one panics the scenario panics
    with it and its report is the last: the later variants are not run. *)
Theorem simple_types_pass_together (c : CreateFunc World Storage)
    (l : LoadFromConfigFunc World Storage Err) (w : World) :
  let ttl := "Storage can handle all supported simple unit types" in
  exists r o sb w',
    run_case E (scenario E ttl) c l w = (r, [OSub 0 (mkReport ttl o [] sb)], w') /\
    (o = Passed <-> map (@outcome Storage Err) sb = repeat Passed 5) /\
    map (@name Storage Err) sb = firstn (length sb) (map (TypeString E) simple_types) /\
    (r <> Panic ->
     length sb = 5 /\ Forall (fun rep => outcome rep <> Panicked) sb) /\
    (r = Panic ->
     o = Panicked /\
     exists pre last,
       sb = pre ++ [last] /\ outcome last = Panicked /\
       Forall (fun rep => outcome rep <> Panicked) pre).
Proof.
  pick_scenario. exec_all.
  all: cbn -[outcome_of]; do 4 eexists; split; [reflexivity|].
  all: split; [|split; [reflexivity|split]].
  all: try (intros H; now contradiction H).
  all: try discriminate.
  all: try solve [intros _; split; [reflexivity | none_panicked]].
  all: try solve
         [intros _; split; [reflexivity|];
          match goal with
          | |- exists pre lst, ?sb = _ /\ _ =>
              exists (removelast sb), (List.last sb (mkReport "" Passed [] []))
          end;
          cbn [removelast List.last app]; repeat split; none_panicked].
  all: rewrite outcome_of_Pass; cbn -[outcome_of].
  all: repeat match goal with
         | |- context [outcome_of (Ok tt) 2 ?O] =>
             destruct (outcome_of_Ok 2 O eq_refl) as [-> | ->]
         end.
  all: cbn; intuition congruence.
Qed.

Lemma own_subs_head (rep : Report Storage Err) (outs : list (Out Storage Err)) :
  own_subs 0 (([OSub 0 rep] ++ []) ++ outs) = rep :: own_subs 0 outs.
Proof. reflexivity. Qed.

Lemma range_cons {A : Type} (x : A) (xs : list A)
    (body : A -> M World Storage Err unit) :
  range (x :: xs) body = bind (body x) (fun _ => range xs body).
Proof. reflexivity. Qed.

(** X3. A backend on which the whole run goes through without a failure
    says of a fresh instance, taken in the world the run started from, that
    it is not created. *)
Theorem passing_backend_starts_uncreated (c : CreateFunc World Storage)
    (l : LoadFromConfigFunc World Storage Err) (w : World) :
  suite_passes E c l w = true -> fresh_not_created E c w.
Proof.
  unfold suite_passes, fresh_not_created.
  rewrite RunStorageTests_by_case.
  pose proof (all_entry_facts c l) as Hall. unfold tests in Hall |- *.
  apply Forall_inv_tail in Hall.
  destruct (c w) as [s w1] eqn:Hc.
  destruct (IsCreated E s w1) as [b w2] eqn:Hi.
  destruct (run_ran Hall w2) as (r & outs & w' & Hrest & _).
  rewrite range_cons. unfold bind at 1. unfold bind at 1.
  match goal with
  | |- context [run_case E ?tc c l w] =>
      assert (Hfirst : exists o,
                 run_case E tc c l w = (Ok (negb (is_failure o)),
                                        [OSub 0 (mkReport (title tc) o
                                           [Call (CNew s); Call (CIsCreated s b);
                                            Assert (IsFalse b)] [])], w2) /\
                 (is_failure o = false -> b = false))
  end.
  { open_body. rewrite Hc. cbv beta iota zeta. rewrite Hi. cbv beta iota zeta.
    eexists. split; [reflexivity|]. destruct b; [discriminate | reflexivity]. }
  destruct Hfirst as (o & -> & Ho).
  cbn [ret]. rewrite Hrest.
  destruct r as [[]| |]; try discriminate.
  intros Hp. apply negb_true_iff in Hp.
  rewrite own_subs_head in Hp.
  cbn [existsb] in Hp. apply orb_false_iff in Hp. destruct Hp as [Hp _].
  cbn [fst]. apply Ho. exact Hp.
Qed.

Lemma range_app_run {A : Type} (xs ys : list A)
    (body : A -> M World Storage Err unit) (w : World) :
  range (xs ++ ys) body w = bind (range xs body) (fun _ => range ys body) w.
Proof.
  revert w. induction xs as [|x xs IH]; intros w.
  - cbn [app range]. unfold bind, ret.
    destruct (range ys body w) as [[r o] w']. reflexivity.
  - cbn [app]. rewrite !range_cons. unfold bind.
    destruct (body x w) as [[[u| |] o1] w1]; try reflexivity.
    rewrite IH. unfold bind.
    destruct (range xs body w1) as [[[u'| |] o2] w2]; try reflexivity.
    destruct (range ys body w2) as [[r o3] w3].
    now rewrite app_assoc.
Qed.

Lemma ran_not_Goexit
    (P : TestCase World Storage Err -> Res bool -> Report Storage Err -> Prop)
    tcs r reps :
  ran P tcs r reps -> r <> Goexit.
Proof.
  induction 1; [discriminate | assumption | discriminate].
Qed.

(** The run up to the configuration scenario: it does not depend on
    [loadFromConfig], and the whole run goes on from it with that one
    scenario. *)
Lemma run_before_config (c : CreateFunc World Storage) (w : World) :
  exists r outs w1,
    (r = Panic \/ r = Ok tt /\ length (own_subs 0 outs) = 11) /\
    forall l : LoadFromConfigFunc World Storage Err,
      RunStorageTests E 0 c l w =
      match r with
      | Ok _ =>
          let '(r2, o2, w2) :=
            bind (run_case E (scenario E config_title) c l) (fun _ => ret tt) w1 in
          (r2, outs ++ o2, w2)
      | _ => (r, outs, w1)
      end.
Proof.
  pose proof (all_entry_facts c None) as Hall.
  change (tests E) with (removelast (tests E) ++ [scenario E config_title]) in Hall.
  apply Forall_app in Hall. destruct Hall as [Hinit _].
  destruct (run_ran Hinit w) as (r & outs & w1 & Hrun & Hran).
  exists r, outs, w1. split.
  - destruct (ran_prefix Hran) as (_ & Hok & _).
    pose proof (ran_not_Goexit Hran) as Hg.
    destruct r as [[]| |]; [right|contradiction|now left].
    split; [reflexivity|]. now apply Hok.
  - intros l. rewrite RunStorageTests_by_case.
    change (tests E) with (removelast (tests E) ++ [scenario E config_title]).
    rewrite range_app_run. unfold bind at 1.
    change (range (removelast (tests E))
              (fun tc => bind (run_case E tc c l) (fun _ => ret tt)) w)
      with (range (removelast (tests E))
              (fun tc => bind (run_case E tc c None) (fun _ => ret tt)) w).
    rewrite Hrun.
    destruct r as [[]| |]; try reflexivity.
    rewrite range_cons. unfold bind at 1.
    destruct (bind (run_case E (scenario E config_title) c l) (fun _ => ret tt) w1)
      as [[[[]| |] o2] w2]; cbn; now rewrite ?app_nil_r.
Qed.

Lemma own_subs_app (t : T) (xs ys : list (Out Storage Err)) :
  own_subs t (xs ++ ys) = own_subs t xs ++ own_subs t ys.
Proof. apply flat_map_app. Qed.

(** X11. Giving a [loadFromConfig] or leaving it out changes nothing before
    the last report: with any two values of the parameter the first eleven
    reports of a run are the same. *)
Theorem loadFromConfig_only_matters_last (c : CreateFunc World Storage)
    (l1 l2 : LoadFromConfigFunc World Storage Err) (w : World) :
  firstn 11 (suite_reports E c l1 w) = firstn 11 (suite_reports E c l2 w).
Proof.
  destruct (run_before_config c w) as (r & outs & w1 & Hr & Hrun).
  assert (H : forall l, firstn 11 (suite_reports E c l w) = firstn 11 (own_subs 0 outs)).
  { intros l. unfold suite_reports. rewrite (Hrun l).
    destruct Hr as [-> | [-> Hlen]]; [reflexivity|].
    destruct (bind _ _ w1) as [[r2 o2] w2].
    rewrite own_subs_app, firstn_app, Hlen, Nat.sub_diag, firstn_O, app_nil_r.
    reflexivity. }
  now rewrite (H l1), (H l2).
Qed.

(** X12. A backend that goes through the whole run without a failure when a
    [loadFromConfig] is given also does when none is given. *)
Theorem passing_with_config_passes_without (c : CreateFunc World Storage)
    (f : bytes -> World -> option Storage * error Err * World) (w : World) :
  suite_passes E c (Some f) w = true -> suite_passes E c None w = true.
Proof.
  destruct (run_before_config c w) as (r & outs & w1 & Hr & Hrun).
  unfold suite_passes. rewrite (Hrun (Some f)), (Hrun None).
  destruct Hr as [-> | [-> Hlen]]; [discriminate|].
  change (bind (run_case E (scenario E config_title) c None) (fun _ => ret tt) w1)
    with (@Ok unit tt,
          [@OSub Storage Err 0 (mkReport config_title Skipped [] [])] ++ [], w1).
  destruct (bind _ _ w1) as [[r2 o2] w2].
  cbv beta iota zeta.
  destruct r2; try discriminate.
  rewrite !own_subs_app, !existsb_app, !negb_true_iff, !orb_false_iff.
  intros [H _]. repeat split; [exact H | reflexivity..].
Qed.

End Facts.

(* ===================================================================== *)
(** ** The structural oracle *)
(* ===================================================================== *)

Lemma item_eqb_eq (a b : TodoItem) : item_eqb a b = true <-> a = b.
Proof.
  destruct a as [d1 b1], b as [d2 b2]. unfold item_eqb. cbn.
  rewrite andb_true_iff, String.eqb_eq, Bool.eqb_true_iff.
  split; [intros [-> ->]; reflexivity | intros [= -> ->]; auto].
Qed.

Lemma list_eqb_eq {A : Type} (eqb : A -> A -> bool) :
  (forall a b, eqb a b = true <-> a = b) ->
  forall xs ys, list_eqb eqb xs ys = true <-> xs = ys.
Proof.
  intros Heq. induction xs as [|x xs IH]; intros [|y ys]; cbn;
    try (split; [discriminate | congruence]); [tauto|].
  rewrite andb_true_iff, Heq, IH.
  split; [intros [-> ->]; reflexivity | intros [= -> ->]; auto].
Qed.

(** The oracle modelled from the spec is deep and order-sensitive: it holds
    exactly of two units that are the same, children and their order
    included. *)
Lemma eqb_eq : forall a b : Unit, UnitPkg.eqb a b = true <-> a = b.
Proof.
  fix eqb_eq 1. intros a b.
  destruct a as [i t|i t d|i t d|i t d g|i t xs|i t xs],
           b as [i' t'|i' t' d'|i' t' d'|i' t' d' g'|i' t' xs'|i' t' xs'];
    cbn [UnitPkg.eqb];
    try (split; [discriminate | congruence]);
    repeat rewrite andb_true_iff; repeat rewrite String.eqb_eq.
  - split; [intros [-> ->]; reflexivity | intros [= -> ->]; auto].
  - split; [intros [[-> ->] ->]; reflexivity | intros [= -> -> ->]; auto].
  - split; [intros [[-> ->] ->]; reflexivity | intros [= -> -> ->]; auto].
  - split; [intros [[[-> ->] ->] ->]; reflexivity | intros [= -> -> -> ->]; auto].
  - rewrite (list_eqb_eq item_eqb item_eqb_eq).
    split; [intros [[-> ->] ->]; reflexivity | intros [= -> -> ->]; auto].
  - assert (Hgo : forall vs,
               (fix go (us vs : list Unit) {struct us} : bool :=
                  match us, vs with
                  | [], [] => true
                  | u :: us', v :: vs' => UnitPkg.eqb u v && go us' vs'
                  | _, _ => false
                  end) xs vs = true <-> xs = vs).
    { induction xs as [|u us IHus]; intros [|v vs];
        try (split; [discriminate | congruence]); [tauto|].
      rewrite andb_true_iff, (eqb_eq u v), IHus.
      split; [intros [-> ->]; reflexivity | intros [= -> ->]; auto]. }
    rewrite Hgo.
    split; [intros [[-> ->] ->]; reflexivity | intros [= -> -> ->]; auto].
Qed.

Example oracle_is_order_sensitive :
  UnitPkg.Equal (Some (UList "l" "" [UUnit "a" ""; UUnit "b" ""]))
                (Some (UList "l" "" [UUnit "b" ""; UUnit "a" ""])) = false.
Proof. reflexivity. Qed.

(* ===================================================================== *)
(** ** Runs on the in-memory backend *)
(* ===================================================================== *)

Example strict_backend_passes :
  suite_passes (Mem.env Mem.Strict) Mem.c (Some Mem.loadFromConfig) Mem.w0 = true /\
  map (@outcome _ _)
      (suite_reports (Mem.env Mem.Strict) Mem.c (Some Mem.loadFromConfig) Mem.w0) =
    repeat Passed 12.
Proof. split; vm_compute; reflexivity. Qed.

Example strict_backend_without_config :
  suite_passes (Mem.env Mem.Strict) Mem.c None Mem.w0 = true /\
  map (@outcome _ _) (suite_reports (Mem.env Mem.Strict) Mem.c None Mem.w0) =
    repeat Passed 11 ++ [Skipped].
Proof. split; vm_compute; reflexivity. Qed.

(** A backend whose [LoadUnit] never finds anything: the first sub-test of
    the simple unit types scenario panics, and nothing is reported after it. *)
Example failed_load_panics :
  suite_panics (Mem.env Mem.NoLoad) Mem.c None Mem.w0 = true /\
  map (fun r => (outcome r, map (@outcome _ _) (subs r)))
      (suite_reports (Mem.env Mem.NoLoad) Mem.c None Mem.w0) =
    [(Passed, []); (Passed, []); (Passed, []); (Passed, []); (Passed, []); (Passed, []);
     (Panicked, [Panicked])].
Proof. split; vm_compute; reflexivity. Qed.

(** C4, counterexample.  The backend that keeps serving unit operations on a
    removed instance goes through the whole suite without a failure, so the
    suite does not require a removed instance to refuse them. *)
Lemma removed_instance_not_constrained :
  ~ suite_requires (@unusable_when_removed).
Proof.
  intros H.
  specialize (H Mem.World Mem.Storage Mem.Err (Mem.env Mem.Lenient) Mem.c
                (Some Mem.loadFromConfig) Mem.w0).
  assert (Hp : suite_passes (Mem.env Mem.Lenient) Mem.c (Some Mem.loadFromConfig) Mem.w0
               = true) by (vm_compute; reflexivity).
  specialize (H Hp). cbv in H.
  destruct (H eq_refl eq_refl (UUnit "x" "") "x") as [Hsave _].
  apply Hsave. reflexivity.
Qed.

(** C5, counterexample.  On the conforming backend the list scenario files no
    nested report, so the run does not register what the specification says:
    one nested sub-test per unit type in the list scenario too. *)
Lemma list_scenario_has_no_subtests :
  ~ registers (Mem.env Mem.Strict) (nested_names_as_specified (Mem.env Mem.Strict))
              Mem.c (Some Mem.loadFromConfig) Mem.w0.
Proof.
  unfold registers. vm_compute. discriminate.
Qed.

(** The conforming backend, with a [loadFromConfig], runs without a panic
    and registers its twelve scenarios and five nested sub-tests. *)
Lemma one_subtest_per_entry_witness :
  suite_panics (Mem.env Mem.Strict) Mem.c (Some Mem.loadFromConfig) Mem.w0 = false /\
  registers (Mem.env Mem.Strict) (nested_names (Mem.env Mem.Strict))
            Mem.c (Some Mem.loadFromConfig) Mem.w0.
Proof.
  split; [vm_compute; reflexivity|].
  apply (one_subtest_per_entry (Mem.env Mem.Strict) Mem.c (Some Mem.loadFromConfig) Mem.w0).
  vm_compute; reflexivity.
Defined.

(** The scenario "Nil unit cannot be saved" runs the same with and without
    a [loadFromConfig]. *)
Lemma loadFromConfig_unused_elsewhere_witness :
  run_case (Mem.env Mem.Strict) (scenario (Mem.env Mem.Strict) "Nil unit cannot be saved")
           Mem.c None Mem.w0 =
  run_case (Mem.env Mem.Strict) (scenario (Mem.env Mem.Strict) "Nil unit cannot be saved")
           Mem.c (Some Mem.loadFromConfig) Mem.w0.
Proof.
  apply (@loadFromConfig_unused_elsewhere _ _ _ (Mem.env Mem.Strict)
           (scenario (Mem.env Mem.Strict) "Nil unit cannot be saved")).
  - do 8 right. left. reflexivity.
  - discriminate.
Defined.

(** The conforming backend passes, and says of a fresh instance that it is
    not created. *)
Lemma passing_backend_starts_uncreated_witness :
  suite_passes (Mem.env Mem.Strict) Mem.c None Mem.w0 = true /\
  fresh_not_created (Mem.env Mem.Strict) Mem.c Mem.w0.
Proof.
  split; [vm_compute; reflexivity|].
  apply (passing_backend_starts_uncreated (Mem.env Mem.Strict) Mem.c None Mem.w0).
  vm_compute; reflexivity.
Defined.

(** The conforming backend passes without a [loadFromConfig]: eleven reports
    read [Passed] and the last one [Skipped]. *)
Lemma passing_run_outcomes_witness :
  suite_passes (Mem.env Mem.Strict) Mem.c None Mem.w0 = true /\
  map (@outcome _ _) (suite_reports (Mem.env Mem.Strict) Mem.c None Mem.w0) =
  map (fun tc => @expected_outcome Mem.World Mem.Storage Mem.Err None (title tc))
      (tests (Mem.env Mem.Strict)).
Proof.
  split; [vm_compute; reflexivity|].
  apply (passing_run_outcomes (Mem.env Mem.Strict) Mem.c None Mem.w0).
  vm_compute; reflexivity.
Defined.

(** The conforming backend passes with its [loadFromConfig], hence without. *)
Lemma passing_with_config_passes_without_witness :
  suite_passes (Mem.env Mem.Strict) Mem.c (Some Mem.loadFromConfig) Mem.w0 = true /\
  suite_passes (Mem.env Mem.Strict) Mem.c None Mem.w0 = true.
Proof.
  split; [vm_compute; reflexivity|].
  apply (passing_with_config_passes_without (Mem.env Mem.Strict) Mem.c
           Mem.loadFromConfig Mem.w0).
  vm_compute; reflexivity.
Defined.
